(** * A shallow embedding of [autoencoder.py]: the stacked convolutional
      autoencoder, its layer-wise gating and its accessors.

    The Python class [stack_autoencoder] builds a TensorFlow graph.  The
    embedding keeps the three things the code manipulates:

    - Python values and exceptions ([Py]): integers, strings, lists, [None],
      the operators [+], [*], [%d], [len], indexing and slicing with their
      dynamic type errors;
    - the graph under construction ([TF]): symbolic tensors, the variable
      store and the stack of open variable scopes;
    - the object [self] and its attributes, which the builder assigns one
      after the other.

    Graph construction is stateful and may raise, so it runs in a small
    state-and-exception monad. *)

From Stdlib Require Import ZArith List String Ascii Bool Lia DecimalString.
Import ListNotations.

Open Scope string_scope.
Open Scope Z_scope.

(** ** Exceptions and the construction monad *)

Inductive exn : Type :=
| ValueError (msg : string)
| TypeError (msg : string)
| NameError (msg : string)
| AttributeError (msg : string)
| IndexError (msg : string).

Inductive result (A : Type) : Type :=
| Ok (a : A)
| Raise (e : exn).

Arguments Ok {A} a.
Arguments Raise {A} e.

Definition is_ok {A} (r : result A) : bool :=
  match r with Ok _ => true | Raise _ => false end.

(** A computation over a state [S] that returns a value or raises; the state
    reached is kept in both cases, as Python keeps every assignment made
    before the exception. *)
Definition M (S A : Type) : Type := S -> result A * S.

Definition ret {S A} (a : A) : M S A := fun s => (Ok a, s).

Definition raise {S A} (e : exn) : M S A := fun s => (Raise e, s).

Definition bind {S A B} (m : M S A) (k : A -> M S B) : M S B :=
  fun s => match m s with
           | (Ok a, s') => k a s'
           | (Raise e, s') => (Raise e, s')
           end.

Definition lift_result {S A} (r : result A) : M S A := fun s => (r, s).

(** Sequencing of pure steps that may raise. *)
Definition and_then {A B} (r : result A) (k : A -> result B) : result B :=
  match r with
  | Ok a => k a
  | Raise e => Raise e
  end.

Definition gets {S A} (f : S -> A) : M S A := fun s => (Ok (f s), s).

Definition modify {S} (f : S -> S) : M S unit := fun s => (Ok tt, f s).

Declare Scope py_scope.
Delimit Scope py_scope with py.

Notation "x <- m ;; k" := (bind m (fun x => k))
  (at level 61, m at next level, right associativity) : py_scope.
Notation "m ;;; k" := (bind m (fun _ => k))
  (at level 61, right associativity) : py_scope.
Notation "'try' x := r 'in' k" := (and_then r (fun x => k))
  (at level 61, x name, r at next level, right associativity) : py_scope.

(** [for x in xs: acc = body x acc]. *)
Fixpoint for_each {S A B} (xs : list A) (body : A -> B -> M S B) (acc : B)
  : M S B :=
  match xs with
  | [] => ret acc
  | x :: xs' => bind (body x acc) (for_each xs' body)
  end.

(** ** Python values *)

Module Py.

#[warnings="-register-all"]
Inductive pyval : Type :=
| VNone
| VBool (b : bool)
| VInt (z : Z)
| VStr (s : string)
| VList (l : list pyval).

(** [range(n)] and [range(start, -1, -1)]. *)
Definition range (n : Z) : list Z :=
  map Z.of_nat (seq 0 (Z.to_nat n)).

Definition range_down (start : Z) : list Z :=
  rev (range (start + 1)).

(** Decimal rendering of an integer, as [%d] prints it. *)
Definition string_of_Z (z : Z) : string :=
  NilZero.string_of_int (Z.to_int z).

(** ['<prefix>%d' % n], for a format string that ends in its one [%d]. *)
Definition percent_d (prefix : string) (n : Z) : string :=
  prefix ++ string_of_Z n.

(** [needle in hay] on strings. *)
Fixpoint contains (needle hay : string) : bool :=
  String.prefix needle hay
  || match hay with
     | EmptyString => false
     | String _ hay' => contains needle hay'
     end.

Definition type_name (v : pyval) : string :=
  match v with
  | VNone => "NoneType"
  | VBool _ => "bool"
  | VInt _ => "int"
  | VStr _ => "str"
  | VList _ => "list"
  end.

(** [len(v)]. *)
Definition len (v : pyval) : result Z :=
  match v with
  | VList l => Ok (Z.of_nat (List.length l))
  | VStr s => Ok (Z.of_nat (String.length s))
  | _ => Raise (TypeError ("object of type '" ++ type_name v ++ "' has no len()"))
  end.

Definition int_of_bool (b : bool) : Z := if b then 1 else 0.

(** [a + b]: numbers add, sequences of one kind concatenate, anything else
    is a [TypeError]. *)
Definition add (a b : pyval) : result pyval :=
  match a, b with
  | VInt x, VInt y => Ok (VInt (x + y))
  | VInt x, VBool y => Ok (VInt (x + int_of_bool y))
  | VBool x, VInt y => Ok (VInt (int_of_bool x + y))
  | VBool x, VBool y => Ok (VInt (int_of_bool x + int_of_bool y))
  | VStr x, VStr y => Ok (VStr (x ++ y))
  | VList x, VList y => Ok (VList (x ++ y))
  | _, _ => Raise (TypeError ("unsupported operand type(s) for +: '"
                              ++ type_name a ++ "' and '" ++ type_name b ++ "'"))
  end.

Fixpoint repeat_string (s : string) (n : nat) : string :=
  match n with
  | O => ""
  | S n' => s ++ repeat_string s n'
  end.

(** [a * n] for an integer [n]: sequences repeat ([n <= 0] gives the empty
    sequence), numbers multiply. *)
Definition mul_int (a : pyval) (n : Z) : result pyval :=
  match a with
  | VList l => Ok (VList (List.concat (List.repeat l (Z.to_nat n))))
  | VStr s => Ok (VStr (repeat_string s (Z.to_nat n)))
  | VInt x => Ok (VInt (x * n))
  | VBool x => Ok (VInt (int_of_bool x * n))
  | VNone => Raise (TypeError "unsupported operand type(s) for *: 'NoneType' and 'int'")
  end.

(** [l[i]] on a list: negative indices count from the end, anything outside
    [-len .. len-1] is an [IndexError]. *)
Definition index {A} (l : list A) (i : Z) : result A :=
  let n := Z.of_nat (List.length l) in
  let j := if i <? 0 then i + n else i in
  if (0 <=? j) && (j <? n) then
    match nth_error l (Z.to_nat j) with
    | Some a => Ok a
    | None => Raise (IndexError "list index out of range")
    end
  else Raise (IndexError "list index out of range").

(** [v[i]] on a value. *)
Definition getitem (v : pyval) (i : Z) : result pyval :=
  match v with
  | VList l => index l i
  | VStr s =>
      match index (list_ascii_of_string s) i with
      | Ok c => Ok (VStr (String c EmptyString))
      | Raise _ => Raise (IndexError "string index out of range")
      end
  | _ => Raise (TypeError ("'" ++ type_name v ++ "' object is not subscriptable"))
  end.

(** A slice bound is clamped into [0 .. len] after a negative one has been
    counted from the end. *)
Definition clamp (n : Z) (b : Z) : Z :=
  let b' := if b <? 0 then b + n else b in
  Z.max 0 (Z.min n b').

(** [l[lo:hi]] with either bound optional. *)
Definition slice {A} (l : list A) (lo hi : option Z) : list A :=
  let n := Z.of_nat (List.length l) in
  let a := match lo with Some b => clamp n b | None => 0 end in
  let b := match hi with Some b => clamp n b | None => n end in
  firstn (Z.to_nat (b - a)) (skipn (Z.to_nat a) l).

(** [a > n] against an integer [n]. *)
Definition gt_int (a : pyval) (n : Z) : result bool :=
  match a with
  | VInt x => Ok (x >? n)
  | VBool x => Ok (int_of_bool x >? n)
  | _ => Raise (TypeError ("'>' not supported between instances of '"
                           ++ type_name a ++ "' and 'int'"))
  end.

(** [v[lo:hi]] on a value. *)
Definition slice_val (v : pyval) (lo hi : option Z) : result pyval :=
  match v with
  | VList l => Ok (VList (slice l lo hi))
  | VStr s => Ok (VStr (string_of_list_ascii (slice (list_ascii_of_string s) lo hi)))
  | _ => Raise (TypeError ("'" ++ type_name v ++ "' object is not subscriptable"))
  end.

End Py.

Import Py.

(** ** The TensorFlow graph *)

Module TF.

(** A dimension is a known size or [None]; a static shape lists them. *)
Definition dim : Type := option Z.
Definition shape : Type := list dim.

Definition py_of_dim (d : dim) : pyval :=
  match d with Some n => VInt n | None => VNone end.

Definition py_of_shape (s : shape) : pyval := VList (map py_of_dim s).

(** A parameter of the graph, under its full scoped name. *)
Record variable : Type := {
  var_name : string;
  var_shape : pyval;
  var_trainable : bool
}.

(** Symbolic tensors: the nodes the builder creates. [Cond i ph t f] is
    [tf.cond(tf.less(i, ph), lambda: t, lambda: f)]. *)
Inductive tensor : Type :=
| Placeholder (name dtype : string) (shp : shape)
| Constant (name : string) (value : Z) (shp : shape)
| Cond (i : Z) (ph : tensor) (include exclude : tensor)
| Resize (method : string) (x : tensor) (size : shape)
| Conv2d (x : tensor) (kernel : variable) (strides : list Z) (padding : string)
| BiasAdd (x : tensor) (biases : variable)
| Relu (x : tensor) (name : string)
| MaxPool (x : tensor) (ksize strides : list Z) (padding : string).

(** The last entry of a parameter's shape, when it is a known integer: the
    number of output channels of a kernel. *)
Definition out_channels (k : variable) : dim :=
  match var_shape k with
  | VList l => match List.last l VNone with VInt c => Some c | _ => None end
  | _ => None
  end.

Fixpoint replace_last (s : shape) (d : dim) : shape :=
  match s with
  | [] => []
  | [_] => [d]
  | x :: s' => x :: replace_last s' d
  end.

(** Size of a pooled dimension under SAME padding: [ceil(n / stride)]. *)
Definition pooled (d : dim) (stride : Z) : dim :=
  match d with
  | Some n => Some ((n + stride - 1) / stride)
  | None => None
  end.

Fixpoint pool_shape (s : shape) (strides : list Z) : shape :=
  match s, strides with
  | d :: s', k :: strides' => pooled d k :: pool_shape s' strides'
  | _, _ => s
  end.

Definition merge_dim (a b : dim) : dim :=
  match a, b with
  | Some x, Some y => if x =? y then Some x else None
  | _, _ => None
  end.

Fixpoint merge_shape (a b : shape) : shape :=
  match a, b with
  | x :: a', y :: b' => merge_dim x y :: merge_shape a' b'
  | _, _ => []
  end.

(** Static shape inference. *)
Fixpoint shape_of (t : tensor) : shape :=
  match t with
  | Placeholder _ _ shp => shp
  | Constant _ _ shp => shp
  | Cond _ _ a b => merge_shape (shape_of a) (shape_of b)
  | Resize _ x size =>
      match shape_of x with
      | [n; _; _; c] => n :: (size ++ [c])%list
      | s => s
      end
  | Conv2d x k _ _ => replace_last (shape_of x) (out_channels k)
  | BiasAdd x _ => shape_of x
  | Relu x _ => shape_of x
  | MaxPool x _ strides _ => pool_shape (shape_of x) strides
  end.

(** The element type of a tensor.  The one constant the builder creates is
    a [float32]; every other operation keeps the type of its input. *)
Fixpoint dtype_of (t : tensor) : string :=
  match t with
  | Placeholder _ dtype _ => dtype
  | Constant _ _ _ => "float32"
  | Cond _ _ a _ => dtype_of a
  | Resize _ x _ => dtype_of x
  | Conv2d x _ _ _ => dtype_of x
  | BiasAdd x _ => dtype_of x
  | Relu x _ => dtype_of x
  | MaxPool x _ _ _ => dtype_of x
  end.

(** The type of the constant a Python integer is converted to when no type is
    asked for: [int32] when it fits, the 64-bit types beyond, and no tensor
    type at all for larger integers. *)
Definition constant_dtype (i : Z) : option string :=
  if (- 2 ^ 31 <=? i) && (i <? 2 ^ 31) then Some "int32"
  else if (- 2 ^ 63 <=? i) && (i <? 2 ^ 63) then Some "int64"
  else if (0 <=? i) && (i <? 2 ^ 64) then Some "uint64"
  else None.

(** [tf.less(i, y)] for a Python integer [i]: the integer is converted
    first and fixes the type of the operation; a second operand of another
    type is refused with [TypeError] when the graph is built.  The result
    stands for the boolean tensor [i < y]. *)
Definition less (i : Z) (y : tensor) : result (Z * tensor) :=
  match constant_dtype i with
  | Some dtype =>
      if String.eqb dtype (dtype_of y) then Ok (i, y)
      else Raise (TypeError
             ("Input 'y' of 'Less' Op has type " ++ dtype_of y
              ++ " that does not match type " ++ dtype ++ " of argument 'x'."))
  | None =>
      Raise (TypeError "Failed to convert object of type <class 'int'> to Tensor.")
  end.

(** [tf.cond(pred, lambda: a, lambda: b)] on a predicate built by [less]. *)
Definition cond (pred : Z * tensor) (a b : tensor) : tensor :=
  Cond (fst pred) (snd pred) a b.


(** The default graph: its variables in creation order, and the variable
    scopes that are open, innermost first. *)
Record graph : Type := {
  variables : list variable;
  scope_stack : list string
}.

Definition empty_graph : graph := {| variables := []; scope_stack := [] |}.

Definition push_scope (name : string) (g : graph) : graph :=
  {| variables := variables g; scope_stack := name :: scope_stack g |}.

Definition pop_scope (g : graph) : graph :=
  {| variables := variables g; scope_stack := tl (scope_stack g) |}.

(** A name under a scope: [outer/inner], and [inner] alone under the empty
    scope name. *)
Definition join_scope (outer inner : string) : string :=
  match outer with
  | EmptyString => inner
  | _ => outer ++ "/" ++ inner
  end.

(** [a/b/c] for the open scopes, outermost first. *)
Definition current_scope (g : graph) : string :=
  fold_left join_scope (rev (scope_stack g)) "".

Definition scoped_name (g : graph) (name : string) : string :=
  join_scope (current_scope g) name.

(** Letters and digits; a plain scope name begins with one and goes on with
    letters, digits and underscores. *)
Definition is_alnum (ch : ascii) : bool :=
  let n := nat_of_ascii ch in
  ((48 <=? n) && (n <=? 57) || (65 <=? n) && (n <=? 90)
   || (97 <=? n) && (n <=? 122))%nat.

Definition plain_name (s : string) : bool :=
  match s with
  | EmptyString => false
  | String ch rest =>
      is_alnum ch
      && forallb (fun x => is_alnum x || Ascii.eqb x "_") (list_ascii_of_string rest)
  end.

(** [with tf.variable_scope(name): body]; the scope is left however the body
    ends.  The name is taken as it is given: the pattern TensorFlow asks of a
    scope name is not checked here. *)
Definition variable_scope {A} (name : string) (body : M graph A) : M graph A :=
  fun g => let (r, g') := body (push_scope name g) in (r, pop_scope g').

Definition add_variable (v : variable) : M graph unit :=
  modify (fun g => {| variables := (variables g ++ [v])%list;
                      scope_stack := scope_stack g |}).

(** [tf.global_variables(scope)] and [tf.trainable_variables(scope)]: the
    variables whose name begins with [scope]. *)
Definition global_variables (scope : string) (g : graph) : list variable :=
  filter (fun v => String.prefix scope (var_name v)) (variables g).

Definition trainable_variables (scope : string) (g : graph) : list variable :=
  filter var_trainable (global_variables scope g).

(** The resize operations [tf.image] exports. *)
Definition image_resize_ops : list string :=
  ["resize_area"; "resize_bicubic"; "resize_bilinear"; "resize_images";
   "resize_nearest_neighbor"].

(** [tf.image.<attr>] for a resize operation. *)
Definition image_getattr (attr : string)
  : result (tensor -> shape -> tensor) :=
  if existsb (String.eqb attr) image_resize_ops
  then Ok (Resize attr)
  else Raise (AttributeError
                ("module 'tensorflow.image' has no attribute '" ++ attr ++ "'")).

(** The entry of a parameter's shape at position [i], when it is a known
    integer. *)
Definition shape_entry (k : variable) (i : Z) : dim :=
  match var_shape k with
  | VList l => match index l i with Ok (VInt c) => Some c | _ => None end
  | _ => None
  end.

Definition rank_of_variable (k : variable) : option nat :=
  match var_shape k with
  | VList l => Some (List.length l)
  | _ => None
  end.

Definition float_types : list string :=
  ["float16"; "bfloat16"; "float32"; "float64"].

(** The channel rule of the convolution for known depths: the depth of the
    filter is not zero and divides that of the input; when they differ the
    quotient, the number of groups, divides the output depth. *)
Definition depths_fit (input filter_in : Z) (out : dim) : bool :=
  if filter_in =? 0 then false
  else if negb (input mod filter_in =? 0) then false
  else if input =? filter_in then true
  else match out with
       | Some o => o mod (input / filter_in) =? 0
       | None => true
       end.

(** [tf.nn.conv2d(x, kernel, strides, padding)]: refused when the graph is
    built unless [x] holds floating-point numbers, both operands have rank 4
    and the channel counts fit. *)
Definition conv2d (x : tensor) (kernel : variable) (strides : list Z)
    (padding : string) : result tensor :=
  if negb (existsb (String.eqb (dtype_of x)) float_types) then
    Raise (TypeError "Value passed to parameter 'input' has DataType not in list of allowed values")
  else
    match shape_of x, rank_of_variable kernel with
    | [_; _; _; c], Some 4%nat =>
        match c, shape_entry kernel 2 with
        | Some depth, Some filter_in =>
            if depths_fit depth filter_in (shape_entry kernel 3)
            then Ok (Conv2d x kernel strides padding)
            else Raise (ValueError "Depth of input is not a multiple of input depth of filter")
        | _, _ => Ok (Conv2d x kernel strides padding)
        end
    | _, _ => Raise (ValueError "Shape must be rank 4")
    end.

(** [tf.nn.max_pool(x, ksize, strides, padding)]: refused unless [x] has
    rank 4, [ksize] and [strides] have four entries and every stride is
    positive. *)
Definition max_pool (x : tensor) (ksize strides : list Z) (padding : string)
  : result tensor :=
  match shape_of x with
  | [_; _; _; _] =>
      if (List.length ksize =? 4)%nat && (List.length strides =? 4)%nat
         && forallb (fun k => 1 <=? k) strides
      then Ok (MaxPool x ksize strides padding)
      else Raise (ValueError "ksize and strides must specify 4 positive dimensions")
  | _ => Raise (ValueError "Shape must be rank 4")
  end.

(** [Dimension.__eq__]: equality of two dimensions is [None], neither true
    nor false, as soon as one of them is unknown. *)
Definition dimension_eq (a b : dim) : option bool :=
  match a, b with
  | Some x, Some y => Some (x =? y)
  | _, _ => None
  end.

Definition truth (o : option bool) : bool :=
  match o with Some b => b | None => false end.

(** [None in s] for a shape [s]: the membership test compares [None] with
    each [Dimension] of the shape and keeps the truth value of the answer. *)
Definition none_in (s : shape) : bool :=
  existsb (fun d => truth (dimension_eq d None)) s.

(** [as_shape(l)] for a list of integers: a [Dimension] is not negative. *)
Fixpoint as_shape (l : list Z) : result shape :=
  match l with
  | [] => Ok []
  | k :: l' =>
      if k <? 0 then
        Raise (ValueError ("Dimension " ++ string_of_Z k ++ " must be >= 0"))
      else match as_shape l' with
           | Ok s => Ok (Some k :: s)
           | Raise e => Raise e
           end
  end.

End TF.

Import TF.

(** ** The [tools] helpers *)

Module Tools.

(** Modelled from the spec: [tools.variable_with_weight_decay] is not part of
    the file; section 6 gives [allocate_weight(name, shape, stddev,
    weight_decay?) -> parameter].  The parameter is created under the open
    variable scope and is trainable. *)
Definition variable_with_weight_decay (name : string) (shp : pyval)
  : M graph variable :=
  (g <- gets (fun g => g) ;;
   let v := {| var_name := scoped_name g name ++ ":0";
               var_shape := shp;
               var_trainable := true |} in
   add_variable v ;;;
   ret v)%py.

(** Modelled from the spec: [tools.variable_on_cpu] is not part of the file;
    section 6 gives [allocate_bias(name, shape, initial_value) ->
    parameter]. *)
Definition variable_on_cpu (name : string) (shp : pyval) : M graph variable :=
  (g <- gets (fun g => g) ;;
   let v := {| var_name := scoped_name g name ++ ":0";
               var_shape := shp;
               var_trainable := true |} in
   add_variable v ;;;
   ret v)%py.

End Tools.

(** ** The class [stack_autoencoder] *)

Module stack_autoencoder.

(** The names the module binds at its top level.  A bare name in a method
    body is looked up here (and then among the builtins), never in the class
    body: [codec], defined inside the class, is not among them. *)
Definition module_globals : list string :=
  ["__author__"; "tf"; "tools"; "stack_autoencoder"; "main"].

(** Evaluation of the bare name [name], which would denote [v] if the module
    bound it. *)
Definition load_global {A} (name : string) (v : A) : result A :=
  if existsb (String.eqb name) module_globals
  then Ok v
  else Raise (NameError ("name '" ++ name ++ "' is not defined")).

(** The attributes of [self].  The last three are assigned by the builder and
    do not exist before. *)
Record model : Type := {
  scope_name : string;
  in_data : tensor;
  in_shape : shape;
  layer_num : Z;
  hidden_outputs : list pyval;
  layer_train_ph : option tensor;
  encoded : option (list tensor);
  decoded : option tensor
}.

Definition set_layer_train_ph (t : tensor) (m : model) : model :=
  {| scope_name := scope_name m; in_data := in_data m; in_shape := in_shape m;
     layer_num := layer_num m; hidden_outputs := hidden_outputs m;
     layer_train_ph := Some t; encoded := encoded m; decoded := decoded m |}.

Definition set_encoded (l : list tensor) (m : model) : model :=
  {| scope_name := scope_name m; in_data := in_data m; in_shape := in_shape m;
     layer_num := layer_num m; hidden_outputs := hidden_outputs m;
     layer_train_ph := layer_train_ph m; encoded := Some l;
     decoded := decoded m |}.

Definition set_decoded (t : tensor) (m : model) : model :=
  {| scope_name := scope_name m; in_data := in_data m; in_shape := in_shape m;
     layer_num := layer_num m; hidden_outputs := hidden_outputs m;
     layer_train_ph := layer_train_ph m; encoded := encoded m;
     decoded := Some t |}.

(** [__init__(self, in_data, layer_num, hidden_outputs)].  [in_data.shape]
    is a [TensorShape] of known rank: line 28 tests [None] against its
    [Dimension] objects, and line 38 concatenates shapes, which turns the
    hidden outputs into dimensions. *)
Definition __init__ (in_data : tensor) (layer_num : Z)
    (hidden_outputs : list Z) : result model :=
  let shape := shape_of in_data in
  if none_in (slice shape (Some (-3)) None) then
    Raise (ValueError "The last 3-D shape must be known and cannot be None.")
  else if negb (Z.of_nat (List.length hidden_outputs) =? layer_num) then
    Raise (ValueError "The length of the hidden_outputs must be equal layer_num.")
  else
    match as_shape hidden_outputs with
    | Raise e => Raise e
    | Ok dims =>
        Ok {| scope_name := "stack_autoencoder";
              in_data := in_data;
              in_shape := shape;
              layer_num := layer_num;
              hidden_outputs :=
                map py_of_dim (slice shape (Some (-1)) None ++ dims)%list;
              layer_train_ph := None;
              encoded := None;
              decoded := None |}
    end.

Definition default_ksize : list Z := [1; 2; 2; 1].
Definition default_strides : list Z := [1; 2; 2; 1].

(** [codec(imgs, filter, is_encode, stddev, name, new_size, ksize, strides)].
    [name] and [new_size] default to [None], [ksize] and [strides] to
    [[1, 2, 2, 1]]; [stddev] only reaches the initializer of the kernel, which
    the graph does not record. *)
Definition codec (imgs : tensor) (filter : pyval) (is_encode : pyval)
    (name : pyval) (new_size : option shape) (ksize strides : list Z)
  : M graph tensor :=
  match is_encode with
  | VBool is_encode =>
      let name :=
        match name with
        | VNone => if is_encode then VStr "encoder" else VStr "decoder"
        | _ => name
        end in
      let layers := [imgs] in
      match name with
      | VStr scope =>
          variable_scope scope
            (layers <-
               (if negb is_encode then
                  match new_size with
                  | None =>
                      raise (ValueError
                        "The value of the new_size must be set if the is_encode is False.")
                  | Some size =>
                      resize <- lift_result
                                  (image_getattr "resize_nearest_nerghbor") ;;
                      last <- lift_result (index layers (-1)) ;;
                      ret (layers ++ [resize last size])%list
                  end
                else ret layers) ;;
             kernel <- Tools.variable_with_weight_decay "weights" filter ;;
             last <- lift_result (index layers (-1)) ;;
             conv <- lift_result (conv2d last kernel [1; 1; 1; 1] "SAME") ;;
             bias_shape <- lift_result (slice_val filter (Some (-1)) None) ;;
             biases <- Tools.variable_on_cpu "biased" bias_shape ;;
             let pre_activation := BiasAdd conv biases in
             scope_full <- gets current_scope ;;
             let activation := Relu pre_activation scope_full in
             let layers := (layers ++ [activation])%list in
             last <- lift_result (index layers (-1)) ;;
             layers <-
               (if is_encode then
                  downsampling <- lift_result
                                    (max_pool last ksize strides "SAME") ;;
                  ret (layers ++ [downsampling])%list
                else ret layers) ;;
             lift_result (index layers (-1)))%py
      | _ =>
          raise (TypeError
            "VariableScope: name_or_scope must be a string or VariableScope.")
      end
  | _ => raise (ValueError "The value of the is_encode must be a bool type.")
  end.

(** The interpreter state of a method call: the object and the graph. *)
Record world : Type := {
  self : model;
  default_graph : graph
}.

Definition in_graph {A} (m : M graph A) : M world A :=
  fun w => let (r, g) := m (default_graph w) in
           (r, {| self := self w; default_graph := g |}).

Definition on_self (f : model -> model) : M world unit :=
  modify (fun w => {| self := f (self w); default_graph := default_graph w |}).

Definition scoped {A} (name : string) (body : M world A) : M world A :=
  fun w =>
    let (r, w') := body {| self := self w;
                           default_graph := push_scope name (default_graph w) |} in
    (r, {| self := self w'; default_graph := pop_scope (default_graph w') |}).

(** Lines 149-153: the input of encode stage [i].  The default argument of
    [include_fn] is read when the lambda is made, the comparison is built
    next, and [tf.cond] then calls the two functions. *)
Definition encode_input (i : Z) (layers : list tensor)
    (layer_train_ph zero_constant : tensor) : result tensor :=
  (try layer := index layers (-1) in
   if negb (i =? 0) then
     try var := index layers (-1) in
     try pred := less i layer_train_ph in
     Ok (cond pred var zero_constant)
   else Ok layer)%py.

(** Lines 164-168: the input of decode stage [i].  [exclude_fn] reads
    [layers[i]] when [tf.cond] calls it, in the same iteration. *)
Definition decode_input (i : Z) (layers : list tensor)
    (layer_train_ph : tensor) : result tensor :=
  (try layer := index layers (-1) in
   if negb (i =? 0) then
     try var := index layers (-1) in
     try pred := less i layer_train_ph in
     try excluded := index layers i in
     Ok (cond pred var excluded)
   else Ok layer)%py.

(** [self.encoded.append(hidden)]. *)
Definition append_encoded (hidden : tensor) : M world unit :=
  (m <- gets self ;;
   match encoded m with
   | Some l => on_self (set_encoded (l ++ [hidden])%list)
   | None => raise (AttributeError
               "'stack_autoencoder' object has no attribute 'encoded'")
   end)%py.

(** Lines 147-157: one iteration of the encode loop, on the local variables
    [layers] and [size_each_hidden]. *)
Definition encode_stage (filter_sizes : pyval)
    (layer_train_ph zero_constant : tensor) (i : Z)
    (locals : list tensor * list shape)
  : M world (list tensor * list shape) :=
  let (layers, size_each_hidden) := locals in
  (name <- lift_result (Py.add (VStr (percent_d "hidden_" i)) (VInt 1)) ;;
   size_i <- lift_result (getitem filter_sizes i) ;;
   last <- lift_result (index layers (-1)) ;;
   f <- lift_result
          (Py.add size_i (py_of_shape (slice (shape_of last) (Some (-1)) None))) ;;
   m <- gets self ;;
   out <- lift_result (index (hidden_outputs m) (i + 1)) ;;
   filter <- lift_result (Py.add f (VList [out])) ;;
   layer <- lift_result (encode_input i layers layer_train_ph zero_constant) ;;
   codec_fn <- lift_result (load_global "codec" codec) ;;
   hidden <- in_graph (codec_fn layer filter (VBool true) name None
                                default_ksize default_strides) ;;
   let size_each_hidden :=
     (size_each_hidden
      ++ [slice (shape_of hidden) (Some (-3)) (Some (-1))])%list in
   let layers := (layers ++ [hidden])%list in
   append_encoded hidden ;;;
   ret (layers, size_each_hidden))%py.

(** Lines 162-170: one iteration of the decode loop. *)
Definition decode_stage (filter_sizes : pyval) (layer_train_ph : tensor)
    (size_each_hidden : list shape) (i : Z) (layers : list tensor)
  : M world (list tensor) :=
  (name <- lift_result (Py.add (VStr (percent_d "hidden_" i)) (VInt 1)) ;;
   size_i <- lift_result (getitem filter_sizes i) ;;
   last <- lift_result (index layers (-1)) ;;
   f <- lift_result
          (Py.add size_i (py_of_shape (slice (shape_of last) (Some (-1)) None))) ;;
   m <- gets self ;;
   out <- lift_result (index (hidden_outputs m) i) ;;
   filter <- lift_result (Py.add f (VList [out])) ;;
   layer <- lift_result (decode_input i layers layer_train_ph) ;;
   codec_fn <- lift_result (load_global "codec" codec) ;;
   new_size <- lift_result (index size_each_hidden i) ;;
   hidden <- in_graph (codec_fn layer filter (VBool false) name (Some new_size)
                                default_ksize default_strides) ;;
   ret (layers ++ [hidden])%list)%py.

(** Line 134: [tf.placeholder(name='layer_train', shape=(), dtype=tf.uint8)],
    the control signal. *)
Definition layer_train : tensor := Placeholder "layer_train" "uint8" [].

(** Line 135: [tf.constant(0.0, dtype=tf.float32, shape=(),
    name='zero_constant')]. *)
Definition zero_constant : tensor := Constant "zero_constant" 0 [].

(** [__gen_model(self, filter_sizes)]. *)
Definition __gen_model (filter_sizes : pyval) : M world tensor :=
  (n <- lift_result (len filter_sizes) ;;
   m <- gets self ;;
   if negb (n =? 1) || negb (n =? layer_num m) then
     raise (ValueError "The length of filter_sizes must be equal 1 or layer_num.")
   else
     let ph := layer_train in
     on_self (set_layer_train_ph ph) ;;;
     let zero_constant := zero_constant in
     n <- lift_result (len filter_sizes) ;;
     filter_sizes <-
       (if n =? 1 then lift_result (mul_int filter_sizes (layer_num m))
        else ret filter_sizes) ;;
     let size_each_hidden := [slice (in_shape m) (Some (-3)) (Some (-1))] in
     let layers := [in_data m] in
     on_self (set_encoded [in_data m]) ;;;
     locals <- scoped "encoder"
                 (for_each (range (layer_num m))
                    (encode_stage filter_sizes ph zero_constant)
                    (layers, size_each_hidden)) ;;
     let (layers, size_each_hidden) := locals : list tensor * list shape in
     layers <- scoped "decoder"
                 (for_each (range_down (layer_num m - 1))
                    (decode_stage filter_sizes ph size_each_hidden)
                    layers) ;;
     out <- lift_result (index layers (-1)) ;;
     on_self (set_decoded out) ;;;
     ret out)%py.

(** [gen_model(self, filter_sizes=[3, 3])]. *)
Definition default_filter_sizes : pyval := VList [VInt 3; VInt 3].

Definition gen_model (filter_sizes : pyval) : M world tensor :=
  (m <- gets self ;;
   scoped (scope_name m) (__gen_model filter_sizes))%py.

(** [get_ph(self)]. *)
Definition get_ph (m : model) : result tensor :=
  match layer_train_ph m with
  | Some ph => Ok ph
  | None => Raise (AttributeError
              "'stack_autoencoder' object has no attribute 'layer_train_ph'")
  end.

(** [get_encoded(self, index=None)]. *)
Definition get_encoded (m : model) (index : pyval) : result tensor :=
  (try too_big := gt_int index (layer_num m) in
   if too_big : bool then
     Raise (ValueError "The index must be less than the layer_num.")
   else
     let index := match index with VNone => VInt (layer_num m) | _ => index end in
     match encoded m with
     | None => Raise (AttributeError
                 "'stack_autoencoder' object has no attribute 'encoded'")
     | Some l =>
         match index with
         | VInt i => Py.index l i
         | VBool b => Py.index l (int_of_bool b)
         | _ => Raise (TypeError
                  ("list indices must be integers or slices, not "
                   ++ type_name index))
         end
     end)%py.

(** [get_decoded(self)]. *)
Definition get_decoded (m : model) : result tensor :=
  match decoded m with
  | Some d => Ok d
  | None => Raise (AttributeError
              "'stack_autoencoder' object has no attribute 'decoded'")
  end.

(** [get_variable_for_layer(self, index, trainable=None)]. *)
Definition get_variable_for_layer (m : model) (index : Z) (trainable : pyval)
    (g : graph) : list variable :=
  let hidden_name := (percent_d "encoder/hidden_" index,
                      percent_d "decoder/hidden_" index) in
  let all_vars :=
    match trainable with
    | VBool true | VNone => trainable_variables (scope_name m) g
    | _ => global_variables (scope_name m) g
    end in
  filter (fun var => contains (fst hidden_name) (var_name var)
                     || contains (snd hidden_name) (var_name var))
         all_vars.

(** What a completed run of the builder leaves in [self]: the control
    placeholder (line 134), the input followed by one output per encode stage
    (lines 142 and 157), and the final decode output (line 173). *)
Definition built (m : model) : Prop :=
  layer_train_ph m <> None /\
  decoded m <> None /\
  exists outputs,
    encoded m = Some (in_data m :: outputs) /\
    Z.of_nat (List.length outputs) = layer_num m.

End stack_autoencoder.

Import stack_autoencoder.

(** ** Sample values *)

(** The input layer and the two encode outputs of a two-layer stack, as the
    codec would name them. *)
Definition example_input : tensor :=
  Placeholder "images" "float32" [None; Some 64; Some 64; Some 3].

Definition example_encoded (prev : tensor) (scope : string) (filter : pyval)
  : tensor :=
  MaxPool
    (Relu
       (BiasAdd
          (Conv2d prev
             {| var_name := scope ++ "/weights:0"; var_shape := filter;
                var_trainable := true |} [1; 1; 1; 1] "SAME")
          {| var_name := scope ++ "/biased:0";
             var_shape := VList [List.last
                                   match filter with VList l => l | _ => [] end
                                   VNone];
             var_trainable := true |})
       scope)
    default_ksize default_strides "SAME".

Definition example_e1 : tensor :=
  example_encoded example_input "stack_autoencoder/encoder/hidden_0"
    (VList [VInt 3; VInt 3; VInt 3; VInt 16]).

Definition example_e2 : tensor :=
  example_encoded example_e1 "stack_autoencoder/encoder/hidden_1"
    (VList [VInt 3; VInt 3; VInt 16; VInt 32]).

(** A two-layer object in the state [built] describes; the decode output
    stands for the tensor line 173 would store. *)
Definition example_built : model :=
  {| scope_name := "stack_autoencoder";
     in_data := example_input;
     in_shape := shape_of example_input;
     layer_num := 2;
     hidden_outputs := [VInt 3; VInt 16; VInt 32];
     layer_train_ph := Some layer_train;
     encoded := Some [example_input; example_e1; example_e2];
     decoded := Some (Relu example_e2 "stack_autoencoder/decoder/hidden_0") |}.

(** The encoder parameters of the layers [indices], allocated by the codec
    under the namespaces [stack_autoencoder/encoder/hidden_<i>]. *)
Definition allocate_encoders (indices : list Z) : M graph unit :=
  variable_scope "stack_autoencoder"
    (variable_scope "encoder"
       (for_each indices
          (fun i _ =>
             bind (codec example_input (VList [VInt 3; VInt 3; VInt 3; VInt 16])
                     (VBool true) (VStr (percent_d "hidden_" i)) None
                     default_ksize default_strides)
                  (fun _ => ret tt))
          tt)).

Definition example_graph : graph :=
  snd (allocate_encoders [0; 1; 2; 10] empty_graph).

(** * Properties *)

(** ** Python indexing *)

Section Indexing.

Context {A : Type}.

(** An index inside [0 .. len-1] reads the element at that position. *)
Lemma index_in_range (l : list A) (i : Z) (a : A) :
  0 <= i ->
  nth_error l (Z.to_nat i) = Some a ->
  index l i = Ok a.
Proof.
  intros Hi Hnth. unfold index.
  assert (Hlt : (Z.to_nat i < List.length l)%nat).
  { apply nth_error_Some. rewrite Hnth. discriminate. }
  replace (i <? 0) with false by (symmetry; apply Z.ltb_ge; lia).
  replace (0 <=? i) with true by (symmetry; apply Z.leb_le; lia).
  replace (i <? Z.of_nat (List.length l)) with true
    by (symmetry; apply Z.ltb_lt; lia).
  simpl. now rewrite Hnth.
Qed.

(** A negative index inside [-len .. -1] reads position [len + i]. *)
Lemma index_negative (l : list A) (i : Z) (a : A) :
  i < 0 ->
  0 <= Z.of_nat (List.length l) + i ->
  nth_error l (Z.to_nat (Z.of_nat (List.length l) + i)) = Some a ->
  index l i = Ok a.
Proof.
  intros Hneg Hlo Hnth. unfold index.
  replace (i <? 0) with true by (symmetry; apply Z.ltb_lt; lia).
  replace (i + Z.of_nat (List.length l))
    with (Z.of_nat (List.length l) + i) by lia.
  replace (0 <=? Z.of_nat (List.length l) + i) with true
    by (symmetry; apply Z.leb_le; lia).
  replace (Z.of_nat (List.length l) + i <? Z.of_nat (List.length l)) with true
    by (symmetry; apply Z.ltb_lt; lia).
  simpl. now rewrite Hnth.
Qed.

(** [l[-1]] is the last element. *)
Lemma index_last (front : list A) (a : A) :
  index (front ++ [a]) (-1) = Ok a.
Proof.
  apply index_negative; try lia.
  - rewrite length_app. simpl. lia.
  - rewrite length_app. simpl.
    replace (Z.to_nat (Z.of_nat (List.length front + 1) + -1))
      with (List.length front + 0)%nat by lia.
    rewrite nth_error_app2 by lia.
    replace (List.length front + 0 - List.length front)%nat with 0%nat by lia.
    reflexivity.
Qed.


(** Inside the bounds an index never raises. *)
Lemma index_total (l : list A) (i : Z) :
  - Z.of_nat (List.length l) <= i < Z.of_nat (List.length l) ->
  exists a, index l i = Ok a.
Proof.
  intros [Hlo Hhi].
  destruct (Z_lt_ge_dec i 0) as [Hneg|Hpos].
  - destruct (nth_error l (Z.to_nat (Z.of_nat (List.length l) + i)))
      as [a|] eqn:Hnth.
    + exists a. apply index_negative; [lia | lia | exact Hnth].
    + apply nth_error_None in Hnth. lia.
  - destruct (nth_error l (Z.to_nat i)) as [a|] eqn:Hnth.
    + exists a. apply index_in_range; [lia | exact Hnth].
    + apply nth_error_None in Hnth. lia.
Qed.

End Indexing.

(** ** Gating of the encode loop *)

(** The control placeholder holds unsigned bytes, and a Python integer is
    never converted to that type: the comparison is refused for every stage
    index. *)
Lemma less_layer_train_raises (i : Z) :
  exists msg, less i layer_train = Raise (TypeError msg).
Proof.
  unfold less, constant_dtype.
  destruct ((- 2 ^ 31 <=? i) && (i <? 2 ^ 31));
    [eexists; reflexivity|].
  destruct ((- 2 ^ 63 <=? i) && (i <? 2 ^ 63));
    [eexists; reflexivity|].
  destruct ((0 <=? i) && (i <? 2 ^ 64)); eexists; reflexivity.
Qed.

(** C1.  The gate of the encode loop does not deliver what it is written
    for.  Stage [0] takes the previous output itself.  For every other stage
    the gate of lines 150-153 raises [TypeError] when it compares the stage
    index with the unsigned-byte control placeholder, so no conditional is
    built and no input selected; and the whole iteration has already failed
    at the layer name of line 147.  [front ++ [prev]] is the list [layers]
    at the start of the iteration. *)
Theorem encode_gate_raises (front : list tensor) (prev : tensor) (i : Z) :
  encode_input 0 (front ++ [prev]) layer_train zero_constant = Ok prev /\
  (i <> 0 ->
   exists msg,
     encode_input i (front ++ [prev]) layer_train zero_constant
     = Raise (TypeError msg)) /\
  (forall filter_sizes sizes w,
     encode_stage filter_sizes layer_train zero_constant i
       (front ++ [prev], sizes)%list w
     = (Raise (TypeError "unsupported operand type(s) for +: 'str' and 'int'"),
        w)).
Proof.
  unfold encode_input. rewrite index_last. simpl. split; [reflexivity|].
  split; [|reflexivity].
  intros Hi.
  replace (i =? 0) with false by (symmetry; apply Z.eqb_neq; lia).
  simpl. destruct (less_layer_train_raises i) as [msg Hless].
  rewrite Hless. exists msg. reflexivity.
Qed.

Lemma encode_gate_raises_witness :
  exists msg,
    encode_input 1 ([example_input] ++ [example_e1]) layer_train zero_constant
    = Raise (TypeError msg).
Proof.
  destruct (encode_gate_raises [example_input] example_e1 1) as [_ [Hgate _]].
  apply Hgate. discriminate.
Defined.

(** ** Gating of the decode loop *)




(** ** Construction *)

Section Construction.

(** Compared with [None], a dimension never answers true. *)
Lemma none_in_false (s : shape) : none_in s = false.
Proof.
  unfold none_in. induction s as [|d s IH]; [reflexivity|].
  simpl. rewrite IH. destruct d; reflexivity.
Qed.

Lemma as_shape_nonnegative (l : list Z) :
  Forall (fun k => 0 <= k) l -> as_shape l = Ok (map Some l).
Proof.
  induction 1 as [|k l Hk _ IH]; [reflexivity|]. simpl.
  replace (k <? 0) with false by (symmetry; apply Z.ltb_ge; lia).
  now rewrite IH.
Qed.

Lemma as_shape_inversion (l : list Z) (s : shape) :
  as_shape l = Ok s -> s = map Some l /\ Forall (fun k => 0 <= k) l.
Proof.
  revert s. induction l as [|k l IH]; simpl; intros s H.
  - injection H as <-. split; [reflexivity|constructor].
  - destruct (k <? 0) eqn:Hk; [discriminate|].
    destruct (as_shape l) as [s'|e]; [|discriminate].
    injection H as <-. destruct (IH s' eq_refl) as [-> Hall].
    apply Z.ltb_ge in Hk. split; [reflexivity|]. now constructor.
Qed.

End Construction.

(** C9.  The shape check of lines 28-29 is dead: whatever the input's
    dimensions, unknown ones included, the outcome of construction depends on
    the hidden outputs alone.  A wrong length raises the length
    [ValueError]; a right length, with channel counts that are not negative,
    returns the object.  The unknown-shape [ValueError] is never raised. *)
Theorem init_ignores_unknown_shape (in_data : tensor) (layer_num : Z)
    (hidden_outputs : list Z) :
  __init__ in_data layer_num hidden_outputs
  <> Raise (ValueError "The last 3-D shape must be known and cannot be None.")
  /\
  (Z.of_nat (List.length hidden_outputs) <> layer_num ->
   __init__ in_data layer_num hidden_outputs
   = Raise (ValueError "The length of the hidden_outputs must be equal layer_num."))
  /\
  (Z.of_nat (List.length hidden_outputs) = layer_num ->
   Forall (fun k => 0 <= k) hidden_outputs ->
   exists m,
     __init__ in_data layer_num hidden_outputs = Ok m /\
     stack_autoencoder.in_data m = in_data /\
     in_shape m = shape_of in_data /\
     stack_autoencoder.layer_num m = layer_num /\
     encoded m = None /\ decoded m = None).
Proof.
  unfold __init__. rewrite none_in_false. split; [|split].
  - destruct (Z.of_nat (List.length hidden_outputs) =? layer_num); simpl;
      [|discriminate].
    destruct (as_shape hidden_outputs) as [dims|e] eqn:Hdims; [discriminate|].
    intros H. injection H as ->. clear -Hdims.
    induction hidden_outputs as [|k l IH]; simpl in Hdims; [discriminate|].
    destruct (k <? 0); [discriminate|].
    destruct (as_shape l); [discriminate|]. now apply IH.
  - intros Hlen. apply Z.eqb_neq in Hlen. now rewrite Hlen.
  - intros Hlen Hall. apply Z.eqb_eq in Hlen. rewrite Hlen. simpl.
    rewrite (as_shape_nonnegative _ Hall).
    eexists. split; [reflexivity|]. repeat split; reflexivity.
Qed.

Lemma init_ignores_unknown_shape_witness :
  let unknown_width :=
    Placeholder "images" "float32" [None; Some 64; None; Some 3] in
  (exists m, __init__ unknown_width 2 [16; 32] = Ok m /\
             in_shape m = [None; Some 64; None; Some 3]) /\
  __init__ unknown_width 2 [16]
  = Raise (ValueError "The length of the hidden_outputs must be equal layer_num.").
Proof.
  cbv zeta.
  destruct (init_ignores_unknown_shape
              (Placeholder "images" "float32" [None; Some 64; None; Some 3])
              2 [16; 32]) as [_ [_ Hok]].
  destruct (init_ignores_unknown_shape
              (Placeholder "images" "float32" [None; Some 64; None; Some 3])
              2 [16]) as [_ [Hlen _]].
  split.
  - destruct (Hok eq_refl ltac:(repeat constructor; lia))
      as [m [Hm [_ [Hshape _]]]].
    exists m. split; [exact Hm|exact Hshape].
  - apply Hlen. simpl. lia.
Defined.

(** ** The builder

    The layer name is computed first in both loop bodies, and ['hidden_%d' %
    i + 1] adds an integer to a string. *)
Lemma encode_stage_raises (fs : pyval) (ph z : tensor) (i : Z)
    (locals : list tensor * list shape) (w : world) :
  encode_stage fs ph z i locals w
  = (Raise (TypeError "unsupported operand type(s) for +: 'str' and 'int'"), w).
Proof. destruct locals. reflexivity. Qed.

Lemma decode_stage_raises (fs : pyval) (ph : tensor) (sizes : list shape)
    (i : Z) (layers : list tensor) (w : world) :
  decode_stage fs ph sizes i layers w
  = (Raise (TypeError "unsupported operand type(s) for +: 'str' and 'int'"), w).
Proof. reflexivity. Qed.

(** A value that has a length can be repeated. *)
Lemma sized_mul (fs : pyval) (n k : Z) :
  len fs = Ok n -> exists fs', mul_int fs k = Ok fs'.
Proof.
  destruct fs; simpl; intros H; try discriminate; eexists; reflexivity.
Qed.

(** The body of the builder raises on every argument and in every state, and
    leaves the graph as it found it. *)
Lemma gen_model_body (fs : pyval) (w : world) :
  exists e w',
    __gen_model fs w = (Raise e, w') /\
    default_graph w' = default_graph w /\
    decoded (self w') = decoded (self w) /\
    (len fs = Raise e
     \/ (exists n, len fs = Ok n /\ (n <> 1 \/ n <> layer_num (self w)) /\
           e = ValueError "The length of filter_sizes must be equal 1 or layer_num.")
     \/ (len fs = Ok 1 /\ layer_num (self w) = 1 /\
           e = TypeError "unsupported operand type(s) for +: 'str' and 'int'")).
Proof.
  unfold __gen_model, bind at 1, lift_result.
  destruct (len fs) as [n|e] eqn:Hlen.
  - unfold bind at 1, gets.
    destruct (n =? 1) eqn:H1; simpl.
    + destruct (n =? layer_num (self w)) eqn:H2; simpl.
      * apply Z.eqb_eq in H1, H2. subst n.
        destruct (sized_mul fs 1 1 Hlen) as [fs' Hmul].
        rewrite <- H2.
        unfold bind, on_self, modify, lift_result. simpl.
        rewrite Hmul. unfold scoped. simpl.
        eexists _, _. split; [reflexivity|]. simpl.
        destruct w as [m g]; destruct g; simpl.
        repeat split; auto.
      * unfold raise. eexists _, _. split; [reflexivity|].
        repeat split; auto. right; left. exists n. repeat split; auto.
        right. now apply Z.eqb_neq.
    + unfold raise. eexists _, _. split; [reflexivity|].
      repeat split; auto. right; left. exists n. repeat split; auto.
      left. now apply Z.eqb_neq.
  - eexists _, _. split; [reflexivity|]. repeat split; auto.
Qed.

(** The call [codec(...)] of lines 154 and 169 names no module-level
    binding. *)
Lemma codec_is_unbound :
  load_global "codec" codec = Raise (NameError "name 'codec' is not defined").
Proof. reflexivity. Qed.

(** C4.  In every state of the object, and so for every constructed model,
    and for every argument, [gen_model] raises; the graph is left unchanged
    (no parameter is allocated, no codec runs) and [self.decoded] is not
    assigned.  The exception is the one [len] raises on an unsized argument,
    or the length [ValueError], or, when the length check passes, which needs
    [len(filter_sizes) == 1 == layer_num], the [TypeError] of the layer-name
    expression.  The name [codec] the loop bodies call is unbound. *)
Theorem gen_model_always_raises (w : world) (filter_sizes : pyval) :
  exists e w',
    gen_model filter_sizes w = (Raise e, w') /\
    default_graph w' = default_graph w /\
    decoded (self w') = decoded (self w) /\
    (len filter_sizes = Raise e
     \/ (exists n, len filter_sizes = Ok n /\
           (n <> 1 \/ n <> layer_num (self w)) /\
           e = ValueError "The length of filter_sizes must be equal 1 or layer_num.")
     \/ (len filter_sizes = Ok 1 /\ layer_num (self w) = 1 /\
           e = TypeError "unsupported operand type(s) for +: 'str' and 'int'"))
    /\ load_global "codec" codec
       = Raise (NameError "name 'codec' is not defined").
Proof.
  unfold gen_model, bind, gets, scoped.
  set (w1 := {| self := self w;
                default_graph := push_scope (scope_name (self w)) (default_graph w) |}).
  destruct (gen_model_body filter_sizes w1) as [e [w' [Hrun [Hg [Hd Hcase]]]]].
  rewrite Hrun. eexists _, _. split; [reflexivity|]. simpl.
  rewrite Hg. subst w1. simpl.
  split; [destruct (default_graph w); reflexivity|].
  split; [exact Hd|]. split; [exact Hcase|reflexivity].
Qed.

(** C3.  The length check contradicts its own message and the docstring of
    [gen_model]: unless the model has exactly one layer, an argument of
    length 1 (to be broadcast) and an argument of length [layer_num] are both
    rejected with the [ValueError] of line 133, the graph untouched. *)
Theorem length_check_rejects_documented_lengths (w : world)
    (filter_sizes : pyval) (n : Z) :
  len filter_sizes = Ok n ->
  n = 1 \/ n = layer_num (self w) ->
  layer_num (self w) <> 1 ->
  exists w',
    gen_model filter_sizes w
    = (Raise (ValueError "The length of filter_sizes must be equal 1 or layer_num."),
       w') /\
    default_graph w' = default_graph w.
Proof.
  intros Hlen Hdoc Hmany.
  unfold gen_model, bind, gets, scoped.
  set (w1 := {| self := self w;
                default_graph := push_scope (scope_name (self w)) (default_graph w) |}).
  destruct (gen_model_body filter_sizes w1) as [e [w' [Hrun [Hg [_ Hcase]]]]].
  rewrite Hrun. eexists. split.
  - destruct Hcase as [Hraise | [[k [_ [_ ->]]] | [_ [Hone _]]]].
    + rewrite Hlen in Hraise. discriminate.
    + reflexivity.
    + subst w1. simpl in Hone. contradiction.
  - simpl. rewrite Hg. subst w1. simpl.
    destruct (default_graph w); reflexivity.
Qed.

Lemma length_check_rejects_documented_lengths_witness :
  exists m,
    __init__ example_input 2 [16; 32] = Ok m /\
    let w := {| self := m; default_graph := empty_graph |} in
    let rejected :=
      Raise (ValueError "The length of filter_sizes must be equal 1 or layer_num.") in
    fst (gen_model (VList [VList [VInt 3; VInt 3]]) w) = rejected /\
    fst (gen_model (VList [VList [VInt 3; VInt 3]; VList [VInt 5; VInt 5]]) w)
    = rejected.
Proof.
  eexists. split; [reflexivity|]. cbv zeta.
  match goal with
  | |- fst (gen_model ?one ?w) = _ /\ fst (gen_model ?each ?w) = _ =>
      destruct (length_check_rejects_documented_lengths w one 1 eq_refl
                  (or_introl eq_refl) ltac:(simpl; lia)) as [w1 [H1 _]];
      destruct (length_check_rejects_documented_lengths w each 2 eq_refl
                  (or_intror eq_refl) ltac:(simpl; lia)) as [w2 [H2 _]];
      rewrite H1, H2
  end.
  split; reflexivity.
Defined.

(** The default argument [[3, 3]] has length 2 and fares no better, even on
    a one-layer model. *)
Lemma default_filter_sizes_rejected :
  exists m,
    __init__ example_input 1 [16] = Ok m /\
    fst (gen_model default_filter_sizes {| self := m; default_graph := empty_graph |})
    = Raise (ValueError "The length of filter_sizes must be equal 1 or layer_num.").
Proof. eexists. split; reflexivity. Qed.

(** ** The codec *)

(** C5.  A decode call without [new_size] raises the [ValueError] the
    docstring announces.  A decode call with [new_size] does not resize and
    does not convolve: the attribute [resize_nearest_nerghbor] it reads does
    not exist in [tf.image], so it raises [AttributeError] and allocates
    nothing.  [name] is given or left to its default. *)
Theorem codec_decode_raises (imgs : tensor) (filter : pyval) (name : string)
    (size : shape) (ksize strides : list Z) (g : graph) :
  let missing :=
    Raise (ValueError
      "The value of the new_size must be set if the is_encode is False.") in
  let misspelled :=
    Raise (AttributeError
      "module 'tensorflow.image' has no attribute 'resize_nearest_nerghbor'") in
  codec imgs filter (VBool false) (VStr name) None ksize strides g
  = (missing, g) /\
  codec imgs filter (VBool false) VNone None ksize strides g = (missing, g) /\
  codec imgs filter (VBool false) (VStr name) (Some size) ksize strides g
  = (misspelled, g) /\
  codec imgs filter (VBool false) VNone (Some size) ksize strides g
  = (misspelled, g).
Proof.
  destruct g as [vars scopes]. repeat split.
Qed.

(** The misspelling is the only obstacle: the attribute one letter away is
    exported. *)
Lemma nearest_neighbor_exists (x : tensor) (size : shape) :
  exists resize,
    image_getattr "resize_nearest_neighbor" = Ok resize /\
    resize x size = Resize "resize_nearest_neighbor" x size.
Proof. eexists. split; reflexivity. Qed.

(** ** The variable index *)

Section Substrings.

(** A common front part can be put before both sides of a prefix. *)
Lemma prefix_app (a p q : string) :
  String.prefix p q = true -> String.prefix (a ++ p) (a ++ q) = true.
Proof.
  intros Hpq. induction a as [|ch a IH]; simpl; [exact Hpq|].
  destruct (ascii_dec ch ch) as [_|Hne]; [exact IH|contradiction].
Qed.

Lemma prefix_trans (p q h : string) :
  String.prefix p q = true -> String.prefix q h = true ->
  String.prefix p h = true.
Proof.
  revert q h. induction p as [|a p IH]; intros q h Hpq Hqh; [destruct h; reflexivity|].
  destruct q as [|b q]; [discriminate|].
  destruct h as [|c h]; [discriminate|].
  simpl in *.
  destruct (ascii_dec a b) as [->|]; [|discriminate].
  destruct (ascii_dec b c) as [_|]; [|discriminate].
  now apply IH with (q := q).
Qed.

Lemma contains_empty (needle : string) :
  contains needle "" = String.prefix needle "".
Proof. simpl. apply orb_false_r. Qed.

Lemma contains_step (needle : string) (ch : ascii) (hay : string) :
  contains needle (String ch hay)
  = String.prefix needle (String ch hay) || contains needle hay.
Proof. reflexivity. Qed.

(** Whatever contains a string contains each of its prefixes. *)
Lemma contains_weaken (p q hay : string) :
  String.prefix p q = true ->
  contains q hay = true -> contains p hay = true.
Proof.
  intros Hpq. induction hay as [|ch hay IH]; intros Hq.
  - rewrite contains_empty in *. now apply prefix_trans with (q := q).
  - rewrite contains_step in *.
    apply orb_true_iff in Hq. apply orb_true_iff.
    destruct Hq as [Hq|Hq].
    + left. now apply prefix_trans with (q := q).
    + right. now apply IH.
Qed.

End Substrings.

(** Every variable returned lies in the object's scope and carries one of the
    two namespace strings somewhere in its name. *)
Lemma get_variable_for_layer_sound (m : model) (i : Z) (trainable : pyval)
    (g : graph) (v : variable) :
  In v (get_variable_for_layer m i trainable g) ->
  In v (variables g) /\
  String.prefix (scope_name m) (var_name v) = true /\
  (contains (percent_d "encoder/hidden_" i) (var_name v) = true \/
   contains (percent_d "decoder/hidden_" i) (var_name v) = true).
Proof.
  unfold get_variable_for_layer. intros Hin.
  apply filter_In in Hin. destruct Hin as [Hall Hname]. simpl in Hname.
  apply orb_true_iff in Hname.
  assert (Hglobal : In v (global_variables (scope_name m) g)).
  { destruct trainable as [ | [|] | | | ]; try exact Hall;
      unfold trainable_variables in Hall; apply filter_In in Hall; tauto. }
  unfold global_variables in Hglobal. apply filter_In in Hglobal.
  tauto.
Qed.

(** On the sample graph, with layers 0, 1, 2 and 10 allocated, index 1
    collects four variables and index 99 none. *)
Lemma variables_of_layer_one_on_example :
  map var_name (get_variable_for_layer example_built 1 VNone example_graph)
  = ["stack_autoencoder/encoder/hidden_1/weights:0";
     "stack_autoencoder/encoder/hidden_1/biased:0";
     "stack_autoencoder/encoder/hidden_10/weights:0";
     "stack_autoencoder/encoder/hidden_10/biased:0"] /\
  get_variable_for_layer example_built 99 VNone example_graph = [].
Proof. split; reflexivity. Qed.

(** C6.  The match is a substring test, so the variables of layer [i]
    include every trainable encoder variable of any layer [j] whose decimal
    index begins with that of [i]: layer 1 collects layer 10. *)
Theorem layer_collects_longer_indices (m : model) (g : graph) (v : variable)
    (i j : Z) :
  String.prefix (string_of_Z i) (string_of_Z j) = true ->
  In v (trainable_variables (scope_name m) g) ->
  contains (percent_d "encoder/hidden_" j) (var_name v) = true ->
  In v (get_variable_for_layer m i VNone g).
Proof.
  intros Hij Hin Hname. unfold get_variable_for_layer.
  apply filter_In. split; [exact Hin|]. simpl.
  apply orb_true_iff. left.
  apply contains_weaken with (q := percent_d "encoder/hidden_" j);
    [|exact Hname].
  unfold percent_d. now apply prefix_app.
Qed.

Lemma layer_collects_longer_indices_witness :
  let v := {| var_name := "stack_autoencoder/encoder/hidden_10/weights:0";
              var_shape := VList [VInt 3; VInt 3; VInt 3; VInt 16];
              var_trainable := true |} in
  In v (variables example_graph) /\
  1 <> 10 /\
  In v (get_variable_for_layer example_built 1 VNone example_graph).
Proof.
  cbv zeta. split; [vm_compute; tauto|]. split; [lia|].
  apply (layer_collects_longer_indices example_built example_graph _ 1 10).
  - reflexivity.
  - vm_compute. tauto.
  - reflexivity.
Defined.

(** ** The accessor [get_encoded] *)

(** The comparison of line 194 comes before the default is filled in. *)
Lemma get_encoded_none (m : model) :
  get_encoded m VNone
  = Raise (TypeError
      "'>' not supported between instances of 'NoneType' and 'int'").
Proof. reflexivity. Qed.

(** Index [0] is the input. *)
Lemma get_encoded_zero (m : model) :
  built m -> get_encoded m (VInt 0) = Ok (in_data m).
Proof.
  intros [_ [_ [outputs [Henc Hlen]]]]. unfold get_encoded. simpl.
  replace (0 >? layer_num m) with false
    by (symmetry; rewrite Z.gtb_ltb; apply Z.ltb_ge; lia).
  rewrite Henc. reflexivity.
Qed.

(** With the full depth spelled out the deepest output is returned. *)
Lemma get_encoded_full_depth (m : model) :
  built m ->
  exists l deepest,
    encoded m = Some l /\
    get_encoded m (VInt (layer_num m)) = Ok deepest /\
    index l (-1) = Ok deepest.
Proof.
  intros [_ [_ [outputs [Henc Hlen]]]]. unfold get_encoded. simpl.
  replace (layer_num m >? layer_num m) with false
    by (symmetry; rewrite Z.gtb_ltb; apply Z.ltb_irrefl).
  rewrite Henc.
  destruct (index_total (in_data m :: outputs) (layer_num m)) as [t Ht].
  { simpl List.length. lia. }
  exists (in_data m :: outputs), t. split; [reflexivity|]. split; [exact Ht|].
  unfold index in Ht |- *. simpl List.length in *.
  replace (layer_num m <? 0) with false in Ht
    by (symmetry; apply Z.ltb_ge; lia).
  replace (-1 <? 0) with true by reflexivity.
  replace (-1 + Z.of_nat (S (List.length outputs))) with (layer_num m) by lia.
  exact Ht.
Qed.

(** C7.  On a built model [get_encoded(0)] returns the input and
    [get_encoded(layer_num)] the deepest encode output, but the call without
    an argument raises [TypeError] and so does not equal
    [get_encoded(layer_num)]. *)
Theorem get_encoded_default_differs (m : model) :
  built m ->
  get_encoded m (VInt 0) = Ok (in_data m) /\
  (exists deepest, get_encoded m (VInt (layer_num m)) = Ok deepest) /\
  get_encoded m VNone
  = Raise (TypeError
      "'>' not supported between instances of 'NoneType' and 'int'") /\
  get_encoded m VNone <> get_encoded m (VInt (layer_num m)).
Proof.
  intros Hbuilt.
  destruct (get_encoded_full_depth m Hbuilt) as [l [deepest [_ [Hfull _]]]].
  split; [now apply get_encoded_zero|].
  split; [now exists deepest|].
  split; [apply get_encoded_none|].
  rewrite get_encoded_none, Hfull. discriminate.
Qed.

(** C8.  An index above [layer_num] raises the [ValueError] of line 195, in
    every state of the object, built or not. *)
Theorem get_encoded_above_layer_num (m : model) (i : Z) :
  i > layer_num m ->
  get_encoded m (VInt i)
  = Raise (ValueError "The index must be less than the layer_num.").
Proof.
  intros Hi. unfold get_encoded. simpl.
  replace (i >? layer_num m) with true
    by (symmetry; rewrite Z.gtb_ltb; apply Z.ltb_lt; lia).
  reflexivity.
Qed.

Lemma example_built_is_built : built example_built.
Proof.
  repeat split; try discriminate.
  exists [example_e1; example_e2]. split; reflexivity.
Qed.

Lemma get_encoded_default_differs_witness :
  get_encoded example_built (VInt 0) = Ok example_input /\
  get_encoded example_built VNone <> get_encoded example_built (VInt 2).
Proof.
  destruct (get_encoded_default_differs example_built example_built_is_built)
    as [Hzero [_ [_ Hdiff]]].
  split; [exact Hzero|exact Hdiff].
Defined.

Lemma get_encoded_above_layer_num_witness :
  3 > layer_num example_built /\
  get_encoded example_built (VInt 3)
  = Raise (ValueError "The index must be less than the layer_num.").
Proof.
  split; [simpl; lia|].
  apply (get_encoded_above_layer_num example_built 3). simpl. lia.
Defined.

(** C10.  On a built model a negative index down to [-(layer_num + 1)] is
    not rejected: it returns the entry of [self.encoded] at position
    [layer_num + 1 + index]. *)
Theorem get_encoded_negative_index (m : model) (i : Z) :
  built m ->
  - (layer_num m + 1) <= i < 0 ->
  exists l t,
    encoded m = Some l /\
    get_encoded m (VInt i) = Ok t /\
    nth_error l (Z.to_nat (layer_num m + 1 + i)) = Some t.
Proof.
  intros [_ [_ [outputs [Henc Hlen]]]] [Hlo Hhi].
  unfold get_encoded. simpl.
  replace (i >? layer_num m) with false
    by (symmetry; rewrite Z.gtb_ltb; apply Z.ltb_ge; lia).
  rewrite Henc.
  assert (Hsize : Z.of_nat (List.length (in_data m :: outputs))
                  = layer_num m + 1) by (simpl List.length; lia).
  destruct (nth_error (in_data m :: outputs)
              (Z.to_nat (layer_num m + 1 + i))) as [t|] eqn:Hnth.
  - exists (in_data m :: outputs), t. split; [reflexivity|].
    split; [|exact Hnth].
    apply index_negative; [lia | lia |].
    rewrite Hsize. exact Hnth.
  - apply nth_error_None in Hnth. lia.
Qed.

Lemma get_encoded_negative_index_witness :
  get_encoded example_built (VInt (-1)) = Ok example_e2 /\
  get_encoded example_built (VInt (-3)) = Ok example_input.
Proof.
  destruct (get_encoded_negative_index example_built (-1)
              example_built_is_built ltac:(simpl; lia))
    as [l [t [Hl [Hget Hnth]]]].
  destruct (get_encoded_negative_index example_built (-3)
              example_built_is_built ltac:(simpl; lia))
    as [l' [t' [Hl' [Hget' Hnth']]]].
  simpl in Hl, Hl'. injection Hl as <-. injection Hl' as <-.
  simpl in Hnth, Hnth'. injection Hnth as <-. injection Hnth' as <-.
  split; assumption.
Defined.

(** * Further properties of the code *)

(** ** The codec, encode side *)

(** X1.  A value of [is_encode] that is not a [bool], the integers [0] and
    [1] included, is refused before a scope is opened or a parameter
    allocated. *)
Theorem codec_rejects_non_bool (imgs : tensor) (filter is_encode name : pyval)
    (new_size : option shape) (ksize strides : list Z) (g : graph) :
  (forall b, is_encode <> VBool b) ->
  codec imgs filter is_encode name new_size ksize strides g
  = (Raise (ValueError "The value of the is_encode must be a bool type."), g).
Proof.
  intros Hnot. destruct is_encode as [ | b | z | s | l ]; try reflexivity.
  exfalso. now apply (Hnot b).
Qed.

Lemma codec_rejects_non_bool_witness :
  codec example_input (VList [VInt 3; VInt 3; VInt 3; VInt 16]) (VInt 1) VNone
        None default_ksize default_strides empty_graph
  = (Raise (ValueError "The value of the is_encode must be a bool type."),
     empty_graph).
Proof.
  apply codec_rejects_non_bool. intros b. discriminate.
Defined.

(** A float input of rank 4 and a kernel of rank 4 whose input depth is the
    channel count of the input are accepted by the convolution. *)
Lemma conv2d_fits (x : tensor) (n h w : dim) (c kh kw out : Z) (name : string)
    (strides : list Z) (padding : string) :
  shape_of x = [n; h; w; Some c] ->
  dtype_of x = "float32" ->
  0 < c ->
  let kernel := {| var_name := name;
                   var_shape := VList [VInt kh; VInt kw; VInt c; VInt out];
                   var_trainable := true |} in
  conv2d x kernel strides padding = Ok (Conv2d x kernel strides padding).
Proof.
  intros Hshape Hdtype Hc. cbv zeta. unfold conv2d.
  rewrite Hshape, Hdtype. simpl. unfold depths_fit.
  replace (c =? 0) with false by (symmetry; apply Z.eqb_neq; lia).
  rewrite Z.mod_same by lia. simpl. now rewrite Z.eqb_refl.
Qed.

(** X2.  In encode mode, on a [float32] input of rank 4 with [c] channels, a
    filter [[kh, kw, c, out]] of positive sizes that fits it, a plain name
    (or the default, which is [encoder]), the default pooling and a graph
    that does not hold the two names yet, the codec returns the pooled
    activation of the convolution of [imgs], allocates exactly the kernel
    (shape [filter]) and the bias (shape [[out]]) under the scope [name], in
    this order, and leaves the scope.  [new_size] plays no part. *)
Theorem codec_encode_result (imgs : tensor) (n h w : dim) (c kh kw out : Z)
    (name : pyval) (scope : string) (new_size : option shape) (g : graph) :
  shape_of imgs = [n; h; w; Some c] ->
  dtype_of imgs = "float32" ->
  0 < kh -> 0 < kw -> 0 < c -> 0 < out ->
  (name = VStr scope /\ plain_name scope = true)
  \/ (name = VNone /\ scope = "encoder") ->
  let inner := push_scope scope g in
  let kernel := {| var_name := scoped_name inner "weights" ++ ":0";
                   var_shape := VList [VInt kh; VInt kw; VInt c; VInt out];
                   var_trainable := true |} in
  let biases := {| var_name := scoped_name inner "biased" ++ ":0";
                   var_shape := VList [VInt out];
                   var_trainable := true |} in
  (forall v, In v (variables g) ->
             var_name v <> var_name kernel /\ var_name v <> var_name biases) ->
  codec imgs (VList [VInt kh; VInt kw; VInt c; VInt out]) (VBool true) name
        new_size default_ksize default_strides g
  = (Ok (MaxPool
           (Relu (BiasAdd (Conv2d imgs kernel [1; 1; 1; 1] "SAME") biases)
                 (current_scope inner))
           default_ksize default_strides "SAME"),
     {| variables := (variables g ++ [kernel; biases])%list;
        scope_stack := scope_stack g |}).
Proof.
  intros Hshape Hdtype Hkh Hkw Hc Hout Hname. cbv zeta. intros _.
  destruct g as [vars scopes].
  assert (Happ : forall a b : variable,
             ((vars ++ [a]) ++ [b] = vars ++ [a; b])%list).
  { intros a b. now rewrite <- app_assoc. }
  assert (Hrun : forall s : string,
    codec imgs (VList [VInt kh; VInt kw; VInt c; VInt out]) (VBool true)
          (VStr s) new_size default_ksize default_strides
          {| variables := vars; scope_stack := scopes |}
    = (let inner := push_scope s {| variables := vars; scope_stack := scopes |} in
       let kernel := {| var_name := scoped_name inner "weights" ++ ":0";
                        var_shape := VList [VInt kh; VInt kw; VInt c; VInt out];
                        var_trainable := true |} in
       let biases := {| var_name := scoped_name inner "biased" ++ ":0";
                        var_shape := VList [VInt out];
                        var_trainable := true |} in
       (Ok (MaxPool
              (Relu (BiasAdd (Conv2d imgs kernel [1; 1; 1; 1] "SAME") biases)
                    (current_scope inner))
              default_ksize default_strides "SAME"),
        {| variables := (vars ++ [kernel; biases])%list;
           scope_stack := scopes |}))).
  { intros s. cbv zeta.
    unfold codec, variable_scope, bind, Tools.variable_with_weight_decay,
      Tools.variable_on_cpu, add_variable, modify, gets, ret, lift_result.
    cbn -[conv2d max_pool scoped_name current_scope index].
    change (index [imgs] (-1)) with (Ok imgs).
    cbn -[conv2d max_pool scoped_name current_scope index].
    rewrite (conv2d_fits imgs n h w c kh kw out _ _ _ Hshape Hdtype Hc).
    cbn -[max_pool scoped_name current_scope index].
    match goal with
    | |- context [index [imgs; ?act] (-1)] =>
        change (index [imgs; act] (-1)) with (Ok act)
    end.
    cbn -[max_pool scoped_name current_scope index].
    unfold max_pool. cbn -[scoped_name current_scope index]. rewrite Hshape.
    cbn -[scoped_name current_scope index].
    match goal with
    | |- context [index [imgs; ?act; ?down] (-1)] =>
        change (index [imgs; act; down] (-1)) with (Ok down)
    end.
    cbn -[scoped_name current_scope]. rewrite Happ. reflexivity. }
  destruct Hname as [[-> _] | [-> ->]]; exact (Hrun _).
Qed.

Lemma codec_encode_result_witness :
  exists out g,
    codec example_input (VList [VInt 3; VInt 3; VInt 3; VInt 16]) (VBool true)
          VNone None default_ksize default_strides empty_graph
    = (Ok out, g) /\
    map var_name (variables g) = ["encoder/weights:0"; "encoder/biased:0"] /\
    map var_shape (variables g)
    = [VList [VInt 3; VInt 3; VInt 3; VInt 16]; VList [VInt 16]].
Proof.
  eexists. eexists. split.
  - apply (codec_encode_result example_input None (Some 64) (Some 64)
             3 3 3 16 VNone "encoder" None empty_graph eq_refl eq_refl);
      try lia.
    + right. split; reflexivity.
    + intros v Hin. destruct Hin.
  - split; reflexivity.
Defined.

(** X3.  Whatever its arguments and however it ends, the codec closes the
    scope it opened and removes no variable: the variables that were there
    are still there, in front, followed by at most two new ones. *)
Theorem codec_keeps_scopes_and_variables (imgs : tensor)
    (filter is_encode name : pyval) (new_size : option shape)
    (ksize strides : list Z) (g : graph) :
  let g' := snd (codec imgs filter is_encode name new_size ksize strides g) in
  scope_stack g' = scope_stack g /\
  exists added,
    variables g' = (variables g ++ added)%list /\ (List.length added <= 2)%nat.
Proof.
  destruct g as [vars scopes]. cbv zeta.
  assert (Hnone : (vars = vars ++ [])%list) by now rewrite app_nil_r.
  assert (Htwo : forall a b : variable,
             ((vars ++ [a]) ++ [b] = vars ++ [a; b])%list).
  { intros a b. now rewrite <- app_assoc. }
  assert (Hscope : forall s : string,
    let r := codec imgs filter is_encode (VStr s) new_size ksize strides
               {| variables := vars; scope_stack := scopes |} in
    scope_stack (snd r) = scopes /\
    exists added,
      variables (snd r) = (vars ++ added)%list /\ (List.length added <= 2)%nat).
  { intros s. cbv zeta.
    destruct is_encode as [ | [|] | z | s' | l ];
      try (simpl; split; [reflexivity|]; exists []; split;
           [exact Hnone|simpl; lia]).
    - (* encode *)
      unfold codec, variable_scope, bind, Tools.variable_with_weight_decay,
        Tools.variable_on_cpu, add_variable, modify, gets, ret, lift_result.
      cbn -[conv2d max_pool slice_val scoped_name current_scope index].
      change (index [imgs] (-1)) with (Ok imgs).
      cbn -[conv2d max_pool slice_val scoped_name current_scope index].
      match goal with
      | |- context [conv2d ?x ?k ?st ?p] =>
          destruct (conv2d x k st p) as [conv|e]
      end;
        [|cbn; split; [reflexivity|]; eexists [_]; split;
          [reflexivity|simpl; lia]].
      destruct (slice_val filter (Some (-1)) None) as [bias_shape|e];
        [|cbn; split; [reflexivity|]; eexists [_]; split;
          [reflexivity|simpl; lia]].
      cbn -[max_pool scoped_name current_scope index].
      match goal with
      | |- context [index [imgs; ?act] (-1)] =>
          change (index [imgs; act] (-1)) with (Ok act)
      end.
      cbn -[max_pool scoped_name current_scope index].
      match goal with
      | |- context [max_pool ?x ?k ?st ?p] =>
          destruct (max_pool x k st p) as [pooled|e]
      end; cbn; (split; [reflexivity|]); rewrite Htwo; eexists [_; _];
        (split; [reflexivity|simpl; lia]).
    - (* decode *)
      destruct new_size as [size|]; simpl; (split; [reflexivity|]);
        exists []; (split; [exact Hnone|simpl; lia]). }
  destruct name as [ | b | z | s | l ];
    try (destruct is_encode as [ | [|] | z' | s' | l' ]; simpl;
         (split; [reflexivity|]); exists [];
         (split; [exact Hnone|simpl; lia])).
  - (* default name *)
    destruct is_encode as [ | [|] | z' | s' | l' ];
      try (simpl; split; [reflexivity|]; exists []; split;
           [exact Hnone|simpl; lia]).
    + exact (Hscope "encoder").
    + exact (Hscope "decoder").
  - exact (Hscope s).
Qed.

(** ** The constructed object *)

Section Slices.

Context {A : Type}.

Lemma clamp_bounds (n b : Z) : 0 <= n -> 0 <= clamp n b <= n.
Proof. intros Hn. unfold clamp. destruct (b <? 0); lia. Qed.

(** [l[b:]] drops the elements in front of the clamped bound. *)
Lemma slice_from (l : list A) (b : Z) :
  slice l (Some b) None
  = skipn (Z.to_nat (clamp (Z.of_nat (List.length l)) b)) l.
Proof.
  unfold slice.
  pose proof (clamp_bounds (Z.of_nat (List.length l)) b ltac:(lia)) as Hb.
  apply firstn_all2. rewrite length_skipn. lia.
Qed.

Lemma slice_last_one (front : list A) (c : A) :
  slice (front ++ [c]) (Some (-1)) None = [c].
Proof.
  rewrite slice_from.
  replace (Z.to_nat (clamp (Z.of_nat (List.length (front ++ [c]))) (-1)))
    with (List.length front + 0)%nat.
  - rewrite skipn_app, Nat.add_0_r, skipn_all.
    replace (List.length front - List.length front)%nat with 0%nat by lia.
    reflexivity.
  - rewrite length_app. cbn [List.length]. unfold clamp.
    change (-1 <? 0) with true. cbv iota. lia.
Qed.

End Slices.

(** What [__init__] has checked and stored when it returns. *)
Lemma init_inversion (in_data : tensor) (n : Z) (hs : list Z) (m : model) :
  __init__ in_data n hs = Ok m ->
  Forall (fun k => 0 <= k) hs /\
  Z.of_nat (List.length hs) = n /\
  m = {| scope_name := "stack_autoencoder";
         in_data := in_data;
         in_shape := shape_of in_data;
         layer_num := n;
         hidden_outputs :=
           map py_of_dim
             (slice (shape_of in_data) (Some (-1)) None ++ map Some hs)%list;
         layer_train_ph := None;
         encoded := None;
         decoded := None |}.
Proof.
  unfold __init__. rewrite none_in_false.
  destruct (Z.of_nat (List.length hs) =? n) eqn:Hlen; simpl; [|discriminate].
  destruct (as_shape hs) as [dims|e] eqn:Hdims; [|discriminate].
  destruct (as_shape_inversion _ _ Hdims) as [-> Hall].
  intros H. injection H as <-. apply Z.eqb_eq in Hlen. auto.
Qed.

(** X4.  For an input of rank at least one, a successful construction stores
    a channel table of [layer_num + 1] entries: entry [0] is the input's
    channel dimension, an integer or [None] as the input has it, and entry
    [i + 1] is [hidden_outputs[i]], which is not negative, for every stage
    [i] of the loops ([0 <= i < layer_num]).  The layer count is not
    negative. *)
Theorem init_channel_table (in_data : tensor) (n : Z) (hs : list Z)
    (m : model) (front : shape) (c : dim) :
  shape_of in_data = (front ++ [c])%list ->
  __init__ in_data n hs = Ok m ->
  0 <= layer_num m /\
  Z.of_nat (List.length (hidden_outputs m)) = layer_num m + 1 /\
  index (hidden_outputs m) 0 = Ok (py_of_dim c) /\
  (forall i, 0 <= i < layer_num m ->
     exists k, nth_error hs (Z.to_nat i) = Some k /\ 0 <= k /\
               index (hidden_outputs m) (i + 1) = Ok (VInt k)).
Proof.
  intros Hshape Hinit.
  destruct (init_inversion _ _ _ _ Hinit) as [Hall [Hlen ->]]. simpl.
  rewrite Hshape. rewrite slice_last_one. simpl.
  split; [lia|]. split; [rewrite !length_map; lia|]. split; [reflexivity|].
  intros i Hi.
  destruct (nth_error hs (Z.to_nat i)) as [k|] eqn:Hk.
  - exists k. split; [reflexivity|]. split.
    + rewrite Forall_forall in Hall. apply Hall.
      now apply nth_error_In with (n := Z.to_nat i).
    + apply index_in_range; [lia|].
      replace (Z.to_nat (i + 1)) with (S (Z.to_nat i)) by lia. simpl.
      rewrite !nth_error_map, Hk. reflexivity.
  - apply nth_error_None in Hk. lia.
Qed.

Lemma init_channel_table_witness :
  exists m,
    __init__ example_input 2 [16; 32] = Ok m /\
    index (hidden_outputs m) 0 = Ok (VInt 3) /\
    index (hidden_outputs m) (1 + 1) = Ok (VInt 32).
Proof.
  eexists. split; [reflexivity|].
  destruct (init_channel_table example_input 2 [16; 32] _
              [None; Some 64; Some 64] (Some 3) eq_refl eq_refl)
    as [_ [_ [H0 Hstage]]].
  split; [exact H0|].
  destruct (Hstage 1 ltac:(simpl; lia)) as [k [Hk [_ H2]]].
  simpl in Hk. injection Hk as <-. exact H2.
Defined.

(** X5.  A negative layer count is never accepted, whatever the input and
    the list of hidden outputs. *)
Theorem init_rejects_negative_layer_num (in_data : tensor) (n : Z)
    (hs : list Z) :
  n < 0 ->
  exists msg, __init__ in_data n hs = Raise (ValueError msg).
Proof.
  intros Hn. unfold __init__.
  destruct (none_in _); [eexists; reflexivity|].
  replace (Z.of_nat (List.length hs) =? n) with false
    by (symmetry; apply Z.eqb_neq; lia).
  eexists; reflexivity.
Qed.

Lemma init_rejects_negative_layer_num_witness :
  exists msg, __init__ example_input (-1) [] = Raise (ValueError msg).
Proof. apply init_rejects_negative_layer_num. lia. Defined.

(** X6.  On an object that has been constructed and not built, [get_ph] and
    [get_decoded] raise [AttributeError], and so does [get_encoded] for every
    index that passes its bound check. *)
Theorem accessors_before_build (in_data : tensor) (n : Z) (hs : list Z)
    (m : model) (i : Z) :
  __init__ in_data n hs = Ok m ->
  get_ph m
  = Raise (AttributeError
      "'stack_autoencoder' object has no attribute 'layer_train_ph'") /\
  get_decoded m
  = Raise (AttributeError
      "'stack_autoencoder' object has no attribute 'decoded'") /\
  (i <= n ->
   get_encoded m (VInt i)
   = Raise (AttributeError
       "'stack_autoencoder' object has no attribute 'encoded'")).
Proof.
  intros Hinit. destruct (init_inversion _ _ _ _ Hinit) as [_ [_ ->]].
  split; [reflexivity|]. split; [reflexivity|].
  intros Hi. unfold get_encoded. simpl.
  replace (i >? n) with false
    by (symmetry; rewrite Z.gtb_ltb; apply Z.ltb_ge; lia).
  reflexivity.
Qed.

Lemma accessors_before_build_witness :
  exists m,
    __init__ example_input 2 [16; 32] = Ok m /\
    get_encoded m (VInt 0)
    = Raise (AttributeError
        "'stack_autoencoder' object has no attribute 'encoded'").
Proof.
  eexists. split; [reflexivity|].
  apply (accessors_before_build example_input 2 [16; 32] _ 0 eq_refl). lia.
Defined.

(** ** The builder and the object it leaves behind *)

(** X7.  Unless the argument has length 1 and the model has one layer,
    [gen_model] raises and changes nothing: the object keeps every attribute
    as it was and the graph is the same, scopes included. *)
Theorem gen_model_rejection_changes_nothing (w : world) (filter_sizes : pyval) :
  ~ (len filter_sizes = Ok 1 /\ layer_num (self w) = 1) ->
  exists e, gen_model filter_sizes w = (Raise e, w).
Proof.
  intros Hnot. destruct w as [m [vars scopes]].
  unfold gen_model, bind, gets, scoped, __gen_model, bind at 1, lift_result.
  simpl self. simpl default_graph.
  destruct (len filter_sizes) as [n|e] eqn:Hlen.
  - unfold bind at 1, gets. simpl self.
    destruct (n =? 1) eqn:H1; simpl.
    + destruct (n =? layer_num m) eqn:H2; simpl.
      * exfalso. apply Hnot. apply Z.eqb_eq in H1, H2. simpl.
        split; congruence.
      * eexists; reflexivity.
    + eexists; reflexivity.
  - eexists; reflexivity.
Qed.

Lemma gen_model_rejection_changes_nothing_witness :
  exists e,
    gen_model default_filter_sizes
      {| self := example_built; default_graph := example_graph |}
    = (Raise e, {| self := example_built; default_graph := example_graph |}).
Proof.
  apply gen_model_rejection_changes_nothing.
  intros [Hlen _]. discriminate Hlen.
Defined.

(** X8.  With an argument of length 1 on a one-layer model, [gen_model]
    raises only after it has assigned [self.layer_train_ph] and
    [self.encoded]: the object is left half built.  [get_ph] then returns the
    placeholder, [get_encoded(0)] the input, [get_encoded(1)], an index the
    bound check lets through, raises [IndexError], and [self.decoded] is as
    before. *)
Theorem gen_model_leaves_object_half_built (w : world) (filter_sizes : pyval) :
  len filter_sizes = Ok 1 ->
  layer_num (self w) = 1 ->
  exists w',
    gen_model filter_sizes w
    = (Raise (TypeError "unsupported operand type(s) for +: 'str' and 'int'"),
       w') /\
    default_graph w' = default_graph w /\
    self w' = set_encoded [in_data (self w)]
                (set_layer_train_ph layer_train (self w)) /\
    get_ph (self w') = Ok layer_train /\
    get_encoded (self w') (VInt 0) = Ok (in_data (self w)) /\
    get_encoded (self w') (VInt 1)
    = Raise (IndexError "list index out of range") /\
    decoded (self w') = decoded (self w).
Proof.
  intros Hlen Hone. destruct w as [m [vars scopes]]. simpl in Hone.
  destruct (sized_mul filter_sizes 1 1 Hlen) as [fs' Hmul].
  unfold gen_model, bind, gets, scoped, __gen_model, bind at 1, lift_result.
  simpl self. simpl default_graph. rewrite Hlen.
  unfold bind at 1, gets. cbn [self default_graph]. rewrite Hone. simpl.
  unfold bind, on_self, modify, lift_result. simpl. rewrite Hmul.
  unfold scoped. simpl.
  eexists. split; [reflexivity|]. simpl.
  split; [reflexivity|]. split; [reflexivity|].
  unfold get_encoded. simpl. rewrite Hone. simpl.
  repeat split; reflexivity.
Qed.

Lemma gen_model_leaves_object_half_built_witness :
  exists m w',
    __init__ example_input 1 [16] = Ok m /\
    fst (gen_model (VList [VList [VInt 3; VInt 3]])
           {| self := m; default_graph := empty_graph |})
    = Raise (TypeError "unsupported operand type(s) for +: 'str' and 'int'") /\
    snd (gen_model (VList [VList [VInt 3; VInt 3]])
           {| self := m; default_graph := empty_graph |}) = w' /\
    get_encoded (self w') (VInt 0) = Ok example_input.
Proof.
  pose (m := match __init__ example_input 1 [16] with
             | Ok m => m
             | Raise _ => example_built
             end).
  destruct (gen_model_leaves_object_half_built
              {| self := m; default_graph := empty_graph |}
              (VList [VList [VInt 3; VInt 3]]) eq_refl eq_refl)
    as [w' [Hrun [_ [_ [_ [Hzero _]]]]]].
  exists m, w'. split; [reflexivity|]. rewrite Hrun.
  split; [reflexivity|]. split; [reflexivity|exact Hzero].
Defined.

(** X9.  Once a loop is entered with at least one layer it fails in its
    first iteration, at the layer-name expression, in whatever state and
    with whatever local variables: this holds for the decode loop as for the
    encode loop.  Nothing is appended, allocated or assigned. *)
Theorem loops_fail_in_first_iteration (filter_sizes : pyval)
    (ph zero : tensor) (sizes : list shape) (n : Z)
    (locals : list tensor * list shape) (layers : list tensor) (w : world) :
  1 <= n ->
  for_each (range n) (encode_stage filter_sizes ph zero) locals w
  = (Raise (TypeError "unsupported operand type(s) for +: 'str' and 'int'"), w)
  /\
  for_each (range_down (n - 1)) (decode_stage filter_sizes ph sizes) layers w
  = (Raise (TypeError "unsupported operand type(s) for +: 'str' and 'int'"), w).
Proof.
  intros Hn. split.
  - unfold range. destruct (Z.to_nat n) as [|k] eqn:Hk; [lia|].
    simpl. unfold bind. now rewrite encode_stage_raises.
  - unfold range_down, range.
    replace (Z.to_nat (n - 1 + 1)) with (S (Z.to_nat (n - 1))) by lia.
    rewrite seq_S, map_app, rev_app_distr. simpl.
    unfold bind. now rewrite decode_stage_raises.
Qed.

Lemma loops_fail_in_first_iteration_witness :
  for_each (range_down (2 - 1))
    (decode_stage (VList [VList [VInt 3; VInt 3]; VList [VInt 3; VInt 3]])
       layer_train [[Some 64; Some 64]; [Some 32; Some 32]; [Some 16; Some 16]])
    [example_input; example_e1; example_e2]
    {| self := example_built; default_graph := example_graph |}
  = (Raise (TypeError "unsupported operand type(s) for +: 'str' and 'int'"),
     {| self := example_built; default_graph := example_graph |}).
Proof.
  apply (loops_fail_in_first_iteration
           (VList [VList [VInt 3; VInt 3]; VList [VInt 3; VInt 3]])
           layer_train zero_constant
           [[Some 64; Some 64]; [Some 32; Some 32]; [Some 16; Some 16]]
           2 ([example_input], [[Some 64; Some 64]])
           [example_input; example_e1; example_e2]).
  lia.
Defined.

(** ** [get_encoded] inside and below its bounds *)

(** X10.  On a built model every index from [0] to [layer_num] returns the
    entry of [self.encoded] at that position, and the negative index
    [i - (layer_num + 1)] returns the same tensor. *)
Theorem get_encoded_in_range (m : model) (i : Z) :
  built m ->
  0 <= i <= layer_num m ->
  exists l t,
    encoded m = Some l /\
    nth_error l (Z.to_nat i) = Some t /\
    get_encoded m (VInt i) = Ok t /\
    get_encoded m (VInt (i - (layer_num m + 1))) = Ok t.
Proof.
  intros [_ [_ [outputs [Henc Hlen]]]] Hi.
  assert (Hsize : Z.of_nat (List.length (in_data m :: outputs))
                  = layer_num m + 1) by (simpl List.length; lia).
  destruct (nth_error (in_data m :: outputs) (Z.to_nat i)) as [t|] eqn:Hnth.
  - exists (in_data m :: outputs), t.
    split; [exact Henc|]. split; [exact Hnth|].
    unfold get_encoded. simpl gt_int. cbv beta iota. unfold and_then.
    replace (i >? layer_num m) with false
      by (symmetry; rewrite Z.gtb_ltb; apply Z.ltb_ge; lia).
    replace (i - (layer_num m + 1) >? layer_num m) with false
      by (symmetry; rewrite Z.gtb_ltb; apply Z.ltb_ge; lia).
    rewrite Henc. split.
    + apply index_in_range; [lia|exact Hnth].
    + apply index_negative; [lia|lia|].
      rewrite Hsize.
      replace (layer_num m + 1 + (i - (layer_num m + 1))) with i by lia.
      exact Hnth.
  - apply nth_error_None in Hnth. lia.
Qed.

Lemma get_encoded_in_range_witness :
  get_encoded example_built (VInt 1) = Ok example_e1 /\
  get_encoded example_built (VInt (1 - (2 + 1))) = Ok example_e1.
Proof.
  destruct (get_encoded_in_range example_built 1 example_built_is_built
              ltac:(simpl; lia)) as [l [t [Hl [Hnth [Hpos Hneg]]]]].
  simpl in Hl. injection Hl as <-. simpl in Hnth. injection Hnth as <-.
  split; [exact Hpos|exact Hneg].
Defined.

(** X11.  Below [-(layer_num + 1)] the index passes the bound check of line
    194 and fails in the list lookup: the error is [IndexError], not the
    [ValueError] raised above [layer_num]. *)
Theorem get_encoded_below_range (m : model) (i : Z) :
  built m ->
  i < - (layer_num m + 1) ->
  get_encoded m (VInt i) = Raise (IndexError "list index out of range").
Proof.
  intros [_ [_ [outputs [Henc Hlen]]]] Hi.
  unfold get_encoded. simpl gt_int. cbv beta iota. unfold and_then.
  replace (i >? layer_num m) with false
    by (symmetry; rewrite Z.gtb_ltb; apply Z.ltb_ge; lia).
  rewrite Henc. unfold index.
  replace (i <? 0) with true by (symmetry; apply Z.ltb_lt; lia).
  replace (0 <=? i + Z.of_nat (List.length (in_data m :: outputs))) with false
    by (symmetry; apply Z.leb_gt; simpl List.length; lia).
  reflexivity.
Qed.

Lemma get_encoded_below_range_witness :
  get_encoded example_built (VInt (-4))
  = Raise (IndexError "list index out of range").
Proof.
  apply (get_encoded_below_range example_built (-4) example_built_is_built).
  simpl. lia.
Defined.

(** ** The variable index: flag, round trip, small stacks *)

Section Filters.

Context {A : Type}.


End Filters.



Section Names.

Lemma string_app_assoc (a b c : string) :
  ((a ++ b) ++ c = a ++ (b ++ c))%string.
Proof.
  induction a as [|ch a IH]; [reflexivity|]. simpl. now rewrite IH.
Qed.

Lemma prefix_of_app (n b : string) : String.prefix n (n ++ b) = true.
Proof.
  induction n as [|ch n IH]; [destruct b; reflexivity|]. simpl.
  destruct (ascii_dec ch ch) as [_|Hne]; [exact IH|contradiction].
Qed.

(** A string is found wherever it has been put. *)
Lemma contains_inside (n a b : string) :
  contains n (a ++ (n ++ b)) = true.
Proof.
  induction a as [|ch a IH].
  - simpl append. destruct (n ++ b)%string eqn:Hnb.
    + rewrite contains_empty, <- Hnb. apply prefix_of_app.
    + rewrite contains_step, <- Hnb, prefix_of_app. reflexivity.
  - simpl append. rewrite contains_step, IH. apply orb_true_r.
Qed.

End Names.

(** X13.  Allocation and lookup agree on the layer's own namespace: after
    the codec has allocated encoder layer [i] under the scopes
    [stack_autoencoder/encoder], on a graph with no scope open, the variables
    of layer [i] are those found before followed by the new kernel and bias.
    This holds for every integer [i]. *)
Theorem allocate_then_lookup (m : model) (i : Z) (g : graph) :
  scope_name m = "stack_autoencoder" ->
  scope_stack g = [] ->
  exists kernel biases,
    variables (snd (allocate_encoders [i] g))
    = (variables g ++ [kernel; biases])%list /\
    var_name kernel
    = ("stack_autoencoder/encoder/hidden_" ++ string_of_Z i ++ "/weights:0")%string /\
    var_name biases
    = ("stack_autoencoder/encoder/hidden_" ++ string_of_Z i ++ "/biased:0")%string /\
    get_variable_for_layer m i VNone (snd (allocate_encoders [i] g))
    = (get_variable_for_layer m i VNone g ++ [kernel; biases])%list.
Proof.
  intros Hscope Hempty. destruct g as [vars scopes]. simpl in Hempty. subst scopes.
  set (name_w := ("stack_autoencoder/encoder/hidden_" ++ string_of_Z i ++ "/weights:0")%string).
  set (name_b := ("stack_autoencoder/encoder/hidden_" ++ string_of_Z i ++ "/biased:0")%string).
  exists {| var_name := name_w;
            var_shape := VList [VInt 3; VInt 3; VInt 3; VInt 16];
            var_trainable := true |},
         {| var_name := name_b; var_shape := VList [VInt 16];
            var_trainable := true |}.
  assert (Hvars :
    variables (snd (allocate_encoders [i]
                      {| variables := vars; scope_stack := [] |}))
    = (vars ++ [ {| var_name := name_w;
                    var_shape := VList [VInt 3; VInt 3; VInt 3; VInt 16];
                    var_trainable := true |};
                 {| var_name := name_b; var_shape := VList [VInt 16];
                    var_trainable := true |} ])%list).
  { unfold allocate_encoders, variable_scope, codec, variable_scope. simpl.
    rewrite <- app_assoc. simpl. subst name_w name_b. unfold percent_d.
    simpl. rewrite !string_app_assoc. reflexivity. }
  split; [exact Hvars|]. split; [reflexivity|]. split; [reflexivity|].
  unfold get_variable_for_layer, trainable_variables, global_variables.
  rewrite Hvars, Hscope. rewrite !filter_app. f_equal.
  assert (Hw : contains (percent_d "encoder/hidden_" i) name_w = true).
  { subst name_w. unfold percent_d.
    change ("stack_autoencoder/encoder/hidden_" ++ string_of_Z i ++ "/weights:0")%string
      with ("stack_autoencoder/"
            ++ (("encoder/hidden_" ++ string_of_Z i) ++ "/weights:0"))%string.
    apply contains_inside. }
  assert (Hb : contains (percent_d "encoder/hidden_" i) name_b = true).
  { subst name_b. unfold percent_d.
    change ("stack_autoencoder/encoder/hidden_" ++ string_of_Z i ++ "/biased:0")%string
      with ("stack_autoencoder/"
            ++ (("encoder/hidden_" ++ string_of_Z i) ++ "/biased:0"))%string.
    apply contains_inside. }
  cbn [filter var_name var_trainable fst snd].
  replace (String.prefix "stack_autoencoder" name_w) with true by reflexivity.
  replace (String.prefix "stack_autoencoder" name_b) with true by reflexivity.
  cbn [filter var_name var_trainable fst snd].
  rewrite Hw, Hb. reflexivity.
Qed.

Lemma allocate_then_lookup_witness :
  map var_name
    (get_variable_for_layer example_built 12 VNone
       (snd (allocate_encoders [12] empty_graph)))
  = ["stack_autoencoder/encoder/hidden_12/weights:0";
     "stack_autoencoder/encoder/hidden_12/biased:0"].
Proof.
  destruct (allocate_then_lookup example_built 12 empty_graph eq_refl eq_refl)
    as [kernel [biases [_ [Hw [Hb Hget]]]]].
  rewrite Hget. simpl. rewrite Hw, Hb. reflexivity.
Defined.

(** [range(n)] holds every integer from [0] up to [n - 1]. *)
Lemma in_range (n i : Z) : 0 <= i < n -> In i (range n).
Proof.
  intros Hi. unfold range. apply in_map_iff.
  exists (Z.to_nat i). split; [lia|]. apply in_seq. lia.
Qed.

(** X14.  With at most ten encoder layers, numbered from [0], the index is
    exact: for a layer that was allocated it returns that layer's kernel and
    bias and nothing else, and for an index from [0] to [9] that was not, it
    returns nothing. *)
Theorem exact_up_to_ten_layers (m : model) (n i : Z) :
  scope_name m = "stack_autoencoder" ->
  0 <= n <= 10 ->
  0 <= i <= 9 ->
  map var_name
    (get_variable_for_layer m i VNone
       (snd (allocate_encoders (range n) empty_graph)))
  = if i <? n then
      [("stack_autoencoder/encoder/hidden_" ++ string_of_Z i ++ "/weights:0")%string;
       ("stack_autoencoder/encoder/hidden_" ++ string_of_Z i ++ "/biased:0")%string]
    else [].
Proof.
  intros Hscope Hn Hi. unfold get_variable_for_layer. rewrite Hscope.
  pose proof (in_range 11 n ltac:(lia)) as Hn'.
  pose proof (in_range 10 i ltac:(lia)) as Hi'.
  clear Hn Hi Hscope. cbv in Hn', Hi'.
  repeat match goal with
         | H : _ \/ _ |- _ => destruct H as [H|H]
         | H : False |- _ => contradiction H
         end;
    subst n i; vm_compute; reflexivity.
Qed.

Lemma exact_up_to_ten_layers_witness :
  map var_name
    (get_variable_for_layer example_built 1 VNone
       (snd (allocate_encoders (range 3) empty_graph)))
  = ["stack_autoencoder/encoder/hidden_1/weights:0";
     "stack_autoencoder/encoder/hidden_1/biased:0"].
Proof.
  apply (exact_up_to_ten_layers example_built 3 1 eq_refl); lia.
Defined.

(** X15.  The index never reaches outside its own store: every variable it
    returns is a variable of the graph, lies under the object's scope name,
    carries the encoder or the decoder namespace of the index in its name,
    and is trainable unless the flag asked for all variables. *)
Theorem lookup_stays_in_scope (m : model) (i : Z) (flag : pyval) (g : graph)
    (v : variable) :
  In v (get_variable_for_layer m i flag g) ->
  In v (variables g) /\
  String.prefix (scope_name m) (var_name v) = true /\
  (contains (percent_d "encoder/hidden_" i) (var_name v) = true \/
   contains (percent_d "decoder/hidden_" i) (var_name v) = true) /\
  (flag = VNone \/ flag = VBool true -> var_trainable v = true).
Proof.
  intros Hin.
  destruct (get_variable_for_layer_sound m i flag g v Hin)
    as [Hgraph [Hscope Hname]].
  repeat split; try assumption.
  intros Hflag. unfold get_variable_for_layer in Hin.
  apply filter_In in Hin. destruct Hin as [Hall _].
  destruct Hflag as [-> | ->]; unfold trainable_variables in Hall;
    apply filter_In in Hall; tauto.
Qed.

Lemma lookup_stays_in_scope_witness :
  let v := {| var_name := "stack_autoencoder/encoder/hidden_2/biased:0";
              var_shape := VList [VInt 16];
              var_trainable := true |} in
  In v (variables example_graph) /\
  String.prefix "stack_autoencoder" (var_name v) = true.
Proof.
  cbv zeta.
  destruct (lookup_stays_in_scope example_built 2 VNone example_graph
              {| var_name := "stack_autoencoder/encoder/hidden_2/biased:0";
                 var_shape := VList [VInt 16];
                 var_trainable := true |})
    as [Hin [Hscope _]].
  - vm_compute. tauto.
  - split; [exact Hin|exact Hscope].
Defined.

(** X16.  The default argument [[3, 3]] is a list of length 2, not a list
    holding one size: on every model, one-layer models included, [gen_model]
    called without an argument raises the length [ValueError] and changes
    nothing. *)
Theorem gen_model_default_argument_rejected (w : world) :
  gen_model default_filter_sizes w
  = (Raise (ValueError "The length of filter_sizes must be equal 1 or layer_num."),
     w).
Proof.
  destruct w as [m [vars scopes]]. reflexivity.
Qed.
